(** * Secure-Bank: ledger and access-delegation engine

    A shallow embedding of the Flask application under [src/app]:
    - [app/ml_models/fraud_detection.py]  (module [Fraud])
    - [app/services/token.py], [audit.py], [notification.py]
    - [app/routes/user.py], [app/routes/admin.py]

    Conventions.
    - Currency amounts and scores are exact rationals ([Q]); the binary
      rounding of Python floats is not modelled.
    - A [datetime] is a number of microseconds since the epoch ([Z]).
    - An [ObjectId], and the string it prints as, is a natural number.
    - MongoDB collections are lists of documents in insertion order;
      [find_one] returns the first match and [update_one] rewrites it.
    - A route handler is a function from the world (database, clock,
      mail outbox, model file) to a response and a new world; handlers
      run one at a time and storage calls do not fail.
    - PyJWT is a parameter: a pair of functions [jwt_encode], [jwt_decode]. *)

From Stdlib Require Import ZArith QArith Qround List String Bool Lia Lqa.
Import ListNotations.

Local Open Scope Z_scope.
Local Open Scope Q_scope.
Local Open Scope string_scope.
Local Open Scope list_scope.

(** ** Python values and exceptions *)

(** The exceptions that occur, all subclasses of [Exception]. *)
Inductive PyExn :=
| TypeError
| AttributeError
| UnpicklingError
| ModelError (msg : string).

(** The values a JSON body, a scoring context or an audit detail can hold. *)
Inductive pyval :=
| PNum (q : Q)
| PBool (b : bool)
| PStr (s : string)
| PNone.

(** Computations that may raise: [inl e] is a raised exception. *)
Definition exc (A : Type) : Type := (PyExn + A)%type.

Definition eret {A} (a : A) : exc A := inr a.
Definition eraise {A} (e : PyExn) : exc A := inl e.
Definition ebind {A B} (c : exc A) (k : A -> exc B) : exc B :=
  match c with
  | inl e => inl e
  | inr a => k a
  end.

Declare Scope exc_scope.
Delimit Scope exc_scope with exc.
Notation "x <- c ;; k" := (ebind c (fun x => k))
  (at level 61, c at next level, right associativity) : exc_scope.

Definition Qlt_bool (x y : Q) : bool := negb (Qle_bool y x).

(** Numbers, and booleans read as 0 and 1, take part in arithmetic. *)
Definition as_num (v : pyval) : option Q :=
  match v with
  | PNum q => Some q
  | PBool b => Some (if b then 1 else 0)
  | _ => None
  end.

(** Python's ordering and division operators on [pyval]: numbers compare
    and divide, anything else raises [TypeError].  Division is only ever
    reached behind a [> 0] guard, so the divisor is non-zero. *)
Definition py_gt (a b : pyval) : exc bool :=
  match as_num a, as_num b with
  | Some x, Some y => eret (Qlt_bool y x)
  | _, _ => eraise TypeError
  end.

Definition py_le (a b : pyval) : exc bool :=
  match as_num a, as_num b with
  | Some x, Some y => eret (Qle_bool x y)
  | _, _ => eraise TypeError
  end.

Definition py_div (a b : pyval) : exc pyval :=
  match as_num a, as_num b with
  | Some x, Some y => eret (PNum (x / y))
  | _, _ => eraise TypeError
  end.

(** [min(a, b)] returns its first argument unless the second is smaller. *)
Definition py_min (a b : Q) : Q := if Qlt_bool b a then b else a.
Definition py_max (a b : Q) : Q := if Qlt_bool a b then b else a.

(** [round(q, 4)]: to the nearest multiple of 1/10000, ties to even. *)
Definition round_half_even (q : Q) : Z :=
  let f := Qfloor q in
  let r := q - inject_Z f in
  if Qlt_bool r (1 # 2) then f
  else if Qlt_bool (1 # 2) r then (f + 1)%Z
  else if Z.even f then f else (f + 1)%Z.

Definition py_round4 (q : Q) : Q := round_half_even (q * 10000) # 10000.

(** ** app/ml_models/fraud_detection.py *)

Module Fraud.

(** The [dict] passed to the scorer: a key may be absent. *)
Record TxnData := {
  d_amount : option pyval;
  d_hour : option pyval;
  d_balance_before : option pyval;
  d_transaction_count_today : option pyval
}.

(** [data.get(key, default)] *)
Definition get (field : option pyval) (default : pyval) : pyval :=
  match field with
  | Some v => v
  | None => default
  end.

Local Open Scope exc_scope.

Definition _rule_based_fraud_score (data : TxnData) : exc Q :=
  let score := 0 in
  let amount := get (d_amount data) (PNum 0) in
  let hour := get (d_hour data) (PNum 12) in
  let balance_before := get (d_balance_before data) (PNum 0) in
  let txn_count_today := get (d_transaction_count_today data) (PNum 0) in
  (* Large amount relative to balance *)
  large <- (pos <- py_gt balance_before (PNum 0) ;;
            if pos then
              ratio <- py_div amount balance_before ;;
              py_gt ratio (PNum (8 # 10))
            else eret false) ;;
  let score := if large then score + (3 # 10) else score in
  (* Unusual hour (midnight to 5am) *)
  unusual <- (lo <- py_le (PNum 0) hour ;;
              if lo then py_le hour (PNum 5) else eret false) ;;
  let score := if unusual then score + (2 # 10) else score in
  (* High transaction count today *)
  busy <- py_gt txn_count_today (PNum 10) ;;
  let score := if busy then score + (25 # 100) else score in
  (* Extremely large amount *)
  huge <- py_gt amount (PNum 100000) ;;
  let score := if huge then score + (25 # 100) else score in
  eret (py_min score 1).

(** The verdict [dict] returned by [predict_fraud]. *)
Record Verdict := {
  is_fraud : bool;
  fraud_score : Q;
  model : string
}.

(** A pickled isolation forest: both methods may raise. *)
Record Model := {
  predict : list pyval -> exc Z;
  decision_function : list pyval -> exc Q
}.

(** What lies at [MODEL_PATH]: nothing, a file that does not unpickle, or
    a trained model. *)
Inductive ModelFile :=
| NoFile
| Corrupt (e : PyExn)
| Pickled (m : Model).

(** The body of the [try] block. *)
Definition predict_fraud_try (file : ModelFile) (transaction_data : TxnData)
  : exc Verdict :=
  match file with
  | Corrupt e => eraise e
  | Pickled m =>
      let features :=
        [ get (d_amount transaction_data) (PNum 0);
          get (d_hour transaction_data) (PNum 12);
          get (d_balance_before transaction_data) (PNum 0);
          get (d_transaction_count_today transaction_data) (PNum 0) ] in
      prediction <- predict m features ;;
      score <- decision_function m features ;;
      (* Normalize score to 0-1 range *)
      let normalized_score := py_max 0 (py_min 1 ((1 - score) / 2)) in
      eret {| is_fraud := Z.eqb prediction (-1);
              fraud_score := py_round4 normalized_score;
              model := "isolation_forest" |}
  | NoFile =>
      (* Fallback to rule-based scoring *)
      score <- _rule_based_fraud_score transaction_data ;;
      eret {| is_fraud := Qle_bool (5 # 10) score;
              fraud_score := py_round4 score;
              model := "rule_based" |}
  end.

(** The [except Exception] branch. *)
Definition fallback_error : Verdict :=
  {| is_fraud := false; fraud_score := 0; model := "fallback_error" |}.

Definition predict_fraud (file : ModelFile) (transaction_data : TxnData)
  : Verdict :=
  match predict_fraud_try file transaction_data with
  | inr verdict => verdict
  | inl _ => fallback_error
  end.

(** The context of four numbers that [withdraw] builds. *)
Definition numeric_data (amount hour balance_before count : Q) : TxnData :=
  {| d_amount := Some (PNum amount);
     d_hour := Some (PNum hour);
     d_balance_before := Some (PNum balance_before);
     d_transaction_count_today := Some (PNum count) |}.



End Fraud.

(** ** The documents of the four MongoDB collections *)

Definition ObjectId := nat.
Definition datetime := Z.
Bind Scope nat_scope with ObjectId.
Bind Scope Z_scope with datetime.

Inductive TxnType := credit | debit.

Inductive Status := pending | granted | denied | expired.

Definition status_eqb (a b : Status) : bool :=
  match a, b with
  | pending, pending | granted, granted
  | denied, denied | expired, expired => true
  | _, _ => false
  end.

Definition status_name (s : Status) : string :=
  match s with
  | pending => "pending"
  | granted => "granted"
  | denied => "denied"
  | expired => "expired"
  end.

Record User := {
  u_id : ObjectId;
  u_name : string;
  u_email : string;
  u_phone : string;
  u_account_number : string;
  u_balance : Q;
  u_role : string;
  u_is_active : bool;
  u_created_at : datetime
}.

Record Transaction := {
  t_id : ObjectId;
  t_user_id : ObjectId;
  t_type : TxnType;
  t_amount : Q;
  t_description : string;
  t_balance_after : Q;
  t_related_account : option string;
  t_is_flagged : bool;
  t_fraud_score : Q;
  t_timestamp : datetime
}.

Record AccessRequest := {
  r_id : ObjectId;
  r_admin_id : ObjectId;
  r_admin_name : string;
  r_user_id : ObjectId;
  r_reason : string;
  r_status : Status;
  r_permission_token : option string;
  r_requested_at : datetime;
  r_expires_at : datetime;
  r_granted_at : option datetime;
  r_denied_at : option datetime
}.

Record AuditLog := {
  a_actor_id : ObjectId;
  a_actor_role : string;
  a_action : string;
  a_target_user_id : option ObjectId;
  a_details : list (string * pyval);
  a_ip_address : string;
  a_user_agent : string;
  a_timestamp : datetime
}.

(** The three messages of [app/services/notification.py]. *)
Inductive Mail :=
| AccessRequestMail (user_email user_name admin_name reason : string)
    (request_id : ObjectId)
| AccessDecisionMail (admin_email admin_name user_name decision : string)
| TransactionAlertMail (user_email user_name : string) (txn_type : TxnType)
    (amount balance : Q).

(** ** The world a handler runs in *)

Record World := {
  users : list User;
  transactions : list Transaction;
  access_requests : list AccessRequest;
  audit_logs : list AuditLog;
  next_id : ObjectId;            (* the next [_id] that [insert_one] mints *)
  clock : nat -> datetime;       (* successive readings of [utcnow()] *)
  ticks : nat;                   (* how many readings were taken *)
  mail_up : bool;                (* whether [mail.send] succeeds *)
  outbox : list Mail;
  model_file : Fraud.ModelFile   (* what lies at [MODEL_PATH] *)
}.

Definition set_users (f : list User -> list User) (w : World) : World :=
  {| users := f (users w); transactions := transactions w;
     access_requests := access_requests w; audit_logs := audit_logs w;
     next_id := next_id w; clock := clock w; ticks := ticks w;
     mail_up := mail_up w; outbox := outbox w; model_file := model_file w |}.

Definition set_transactions (f : list Transaction -> list Transaction)
  (w : World) : World :=
  {| users := users w; transactions := f (transactions w);
     access_requests := access_requests w; audit_logs := audit_logs w;
     next_id := next_id w; clock := clock w; ticks := ticks w;
     mail_up := mail_up w; outbox := outbox w; model_file := model_file w |}.

Definition set_access_requests
  (f : list AccessRequest -> list AccessRequest) (w : World) : World :=
  {| users := users w; transactions := transactions w;
     access_requests := f (access_requests w); audit_logs := audit_logs w;
     next_id := next_id w; clock := clock w; ticks := ticks w;
     mail_up := mail_up w; outbox := outbox w; model_file := model_file w |}.

Definition set_audit_logs (f : list AuditLog -> list AuditLog) (w : World)
  : World :=
  {| users := users w; transactions := transactions w;
     access_requests := access_requests w; audit_logs := f (audit_logs w);
     next_id := next_id w; clock := clock w; ticks := ticks w;
     mail_up := mail_up w; outbox := outbox w; model_file := model_file w |}.

Definition set_next_id (n : ObjectId) (w : World) : World :=
  {| users := users w; transactions := transactions w;
     access_requests := access_requests w; audit_logs := audit_logs w;
     next_id := n; clock := clock w; ticks := ticks w;
     mail_up := mail_up w; outbox := outbox w; model_file := model_file w |}.

Definition set_ticks (n : nat) (w : World) : World :=
  {| users := users w; transactions := transactions w;
     access_requests := access_requests w; audit_logs := audit_logs w;
     next_id := next_id w; clock := clock w; ticks := n;
     mail_up := mail_up w; outbox := outbox w; model_file := model_file w |}.

Definition set_outbox (f : list Mail -> list Mail) (w : World) : World :=
  {| users := users w; transactions := transactions w;
     access_requests := access_requests w; audit_logs := audit_logs w;
     next_id := next_id w; clock := clock w; ticks := ticks w;
     mail_up := mail_up w; outbox := f (outbox w);
     model_file := model_file w |}.

(** ** HTTP requests and responses *)

(** [get_jwt_identity()]: the claims of the caller's login token. *)
Record Identity := {
  i_user_id : ObjectId;
  i_role : string;
  i_name : string
}.

(** [request.get_json()]: the keys the routes read. *)
Record JsonBody := {
  j_amount : option Q;
  j_description : option string;
  j_to_account_number : option string;
  j_reason : option string
}.

Record Request := {
  identity : option Identity;          (* [None]: no valid login token *)
  json : JsonBody;
  x_permission_token : option string;  (* the [X-Permission-Token] header *)
  remote_addr : string;
  user_agent : option string
}.

Inductive Body :=
| Error (msg : string)
| DepositOk (amount new_balance : Q)
| WithdrawOk (amount new_balance : Q) (warning : option string)
| TransferOk (amount : Q) (to : string) (new_balance : Q)
| RequestAccessOk (request_id : ObjectId) (email_sent : bool)
    (expires_at : datetime)
| GrantOk (expires_in : string)
| DenyOk
| AccountView (user : User) (recent : list Transaction) (access_note : string).

Inductive Response :=
| Json (body : Body) (status : Z)
| MissingLogin                 (* [jwt_required] refused the request *)
| Unhandled (e : PyExn).       (* an exception left the handler *)

(** ** Handlers: state passing with early return *)

Inductive Step (A : Type) :=
| Next (a : A)
| Reply (r : Response).
Arguments Next {A} a.
Arguments Reply {A} r.

Definition Handler (A : Type) : Type := World -> Step A * World.

Definition ret {A} (a : A) : Handler A := fun w => (Next a, w).

Definition bind {A B} (c : Handler A) (k : A -> Handler B) : Handler B :=
  fun w =>
    match c w with
    | (Next a, w') => k a w'
    | (Reply r, w') => (Reply r, w')
    end.

(** [return jsonify(body), status] *)
Definition reply {A} (body : Body) (status : Z) : Handler A :=
  fun w => (Reply (Json body status), w).

Definition raise {A} (e : PyExn) : Handler A :=
  fun w => (Reply (Unhandled e), w).

Definition gets {A} (f : World -> A) : Handler A := fun w => (Next (f w), w).

Definition modify (f : World -> World) : Handler unit :=
  fun w => (Next tt, f w).

Declare Scope handler_scope.
Delimit Scope handler_scope with handler.
Notation "x <- c ;; k" := (bind c (fun x => k))
  (at level 61, c at next level, right associativity) : handler_scope.
Notation "c ;; k" := (bind c (fun _ => k))
  (at level 61, right associativity) : handler_scope.

(** What Flask sends for a finished handler. *)
Definition run (h : Handler Response) (w : World) : Response * World :=
  match h w with
  | (Next r, w') => (r, w')
  | (Reply r, w') => (r, w')
  end.

Local Open Scope handler_scope.

(** Subscripting the result of a [find_one] that found nothing. *)
Definition subscript {A} (doc : option A) : Handler A :=
  match doc with
  | Some d => ret d
  | None => raise TypeError
  end.

(** ** Clock *)

Definition utcnow : Handler datetime :=
  fun w => (Next (clock w (ticks w)), set_ticks (S (ticks w)) w).

Definition second : Z := 1000000.
Definition minute : Z := 60 * second.
Definition hour_us : Z := 60 * minute.
Definition day_us : Z := 24 * hour_us.

(** [t.hour] *)
Definition hour_of (t : datetime) : Z := ((t / hour_us) mod 24)%Z.

(** [t.replace(hour=0, minute=0, second=0)]: the microseconds stay. *)
Definition replace_hms0 (t : datetime) : datetime :=
  (t - t mod day_us + t mod second)%Z.

(** ** MongoDB operations *)

(** [collection.update_one(filter, {"$set": ...})] *)
Fixpoint update_one {A} (filter : A -> bool) (set : A -> A) (l : list A)
  : list A :=
  match l with
  | [] => []
  | d :: rest =>
      if filter d then set d :: rest
      else d :: update_one filter set rest
  end.

(** [collection.count_documents(filter)] *)
Definition count_documents {A} (filter : A -> bool) (l : list A) : nat :=
  List.length (List.filter filter l).

(** The [_id] that [insert_one] gives the new document. *)
Definition fresh_id : Handler ObjectId :=
  fun w => (Next (next_id w), set_next_id (S (next_id w)) w).

Definition insert_transaction (doc : ObjectId -> Transaction)
  : Handler ObjectId :=
  id <- fresh_id ;;
  modify (set_transactions (fun l => l ++ [doc id])) ;;
  ret id.

Definition insert_access_request (doc : ObjectId -> AccessRequest)
  : Handler ObjectId :=
  id <- fresh_id ;;
  modify (set_access_requests (fun l => l ++ [doc id])) ;;
  ret id.

Definition find_user (filter : User -> bool) : Handler (option User) :=
  gets (fun w => find filter (users w)).

Definition find_access_request (filter : AccessRequest -> bool)
  : Handler (option AccessRequest) :=
  gets (fun w => find filter (access_requests w)).

Definition set_balance (b : Q) (u : User) : User :=
  {| u_id := u_id u; u_name := u_name u; u_email := u_email u;
     u_phone := u_phone u; u_account_number := u_account_number u;
     u_balance := b; u_role := u_role u; u_is_active := u_is_active u;
     u_created_at := u_created_at u |}.

(** [users.update_one({"_id": id}, {"$set": {"balance": b}})] *)
Definition update_balance (id : ObjectId) (b : Q) : Handler unit :=
  modify (set_users (update_one (fun u => Nat.eqb (u_id u) id) (set_balance b))).

(** ** app/services/notification.py and app/services/audit.py *)

(** [mail.send(msg)] inside [try]/[except]: the caller only sees a flag. *)
Definition mail_send (msg : Mail) : Handler bool :=
  up <- gets mail_up ;;
  if up then modify (set_outbox (fun l => l ++ [msg])) ;; ret true
  else ret false.

Definition send_access_request_email
  (user_email user_name admin_name reason : string) (request_id : ObjectId)
  : Handler bool :=
  mail_send (AccessRequestMail user_email user_name admin_name reason request_id).

Definition send_access_decision_email
  (admin_email admin_name user_name decision : string) : Handler bool :=
  mail_send (AccessDecisionMail admin_email admin_name user_name decision).

Definition send_transaction_alert_email
  (user_email user_name : string) (txn_type : TxnType) (amount balance : Q)
  : Handler bool :=
  mail_send (TransactionAlertMail user_email user_name txn_type amount balance).

Definition log_action (rq : Request) (actor_id : ObjectId)
  (actor_role action : string) (target_user_id : option ObjectId)
  (details : list (string * pyval)) : Handler unit :=
  now <- utcnow ;;
  let log_entry :=
    {| a_actor_id := actor_id;
       a_actor_role := actor_role;
       a_action := action;
       a_target_user_id := target_user_id;
       a_details := details;
       a_ip_address := remote_addr rq;
       a_user_agent := match user_agent rq with
                       | Some ua => ua
                       | None => "unknown"
                       end;
       a_timestamp := now |} in
  modify (set_audit_logs (fun l => l ++ [log_entry])).

(** ** app/routes/user.py: the ledger *)

(** [@jwt_required()] *)
Definition jwt_required (rq : Request) (fn : Identity -> Handler Response)
  : Handler Response :=
  match identity rq with
  | Some who => fn who
  | None => fun w => (Reply MissingLogin, w)
  end.

Definition or_default {A} (field : option A) (default : A) : A :=
  match field with
  | Some v => v
  | None => default
  end.

Definition id_num (id : ObjectId) : pyval := PNum (inject_Z (Z.of_nat id)).

Definition deposit (rq : Request) : Handler Response :=
  jwt_required rq (fun identity =>
  let data := json rq in
  let amount := or_default (j_amount data) 0 in
  if Qle_bool amount 0 then
    reply (Error "Amount must be greater than 0") 400
  else if Qlt_bool 1000000 amount then
    reply (Error "Maximum deposit limit is ₹10,00,000") 400
  else
    found <- find_user (fun u => Nat.eqb (u_id u) (i_user_id identity)) ;;
    user <- subscript found ;;
    let new_balance := u_balance user + amount in
    (* Update balance *)
    update_balance (u_id user) new_balance ;;
    (* Record transaction *)
    now <- utcnow ;;
    insert_transaction (fun id =>
      {| t_id := id;
         t_user_id := u_id user;
         t_type := credit;
         t_amount := amount;
         t_description := or_default (j_description data) "Deposit";
         t_balance_after := new_balance;
         t_related_account := None;
         t_is_flagged := false;
         t_fraud_score := 0;
         t_timestamp := now |}) ;;
    (* Send alert email *)
    send_transaction_alert_email (u_email user) (u_name user) credit amount
      new_balance ;;
    log_action rq (u_id user) "user" "deposit" None [("amount", PNum amount)] ;;
    ret (Json (DepositOk amount new_balance) 200)).

Definition withdraw (rq : Request) : Handler Response :=
  jwt_required rq (fun identity =>
  let data := json rq in
  let amount := or_default (j_amount data) 0 in
  if Qle_bool amount 0 then
    reply (Error "Amount must be greater than 0") 400
  else
    found <- find_user (fun u => Nat.eqb (u_id u) (i_user_id identity)) ;;
    user <- subscript found ;;
    if Qlt_bool (u_balance user) amount then
      reply (Error "Insufficient balance") 400
    else
      let new_balance := u_balance user - amount in
      (* Check fraud before processing *)
      t_hour <- utcnow ;;
      t_count <- utcnow ;;
      txn_count <- gets (fun w =>
        count_documents
          (fun t => Nat.eqb (t_user_id t) (u_id user)
                    && Z.leb (replace_hms0 t_count) (t_timestamp t))
          (transactions w)) ;;
      file <- gets model_file ;;
      let fraud_result :=
        Fraud.predict_fraud file
          {| Fraud.d_amount := Some (PNum amount);
             Fraud.d_hour := Some (PNum (inject_Z (hour_of t_hour)));
             Fraud.d_balance_before := Some (PNum (u_balance user));
             Fraud.d_transaction_count_today :=
               Some (PNum (inject_Z (Z.of_nat txn_count))) |} in
      (* Update balance *)
      update_balance (u_id user) new_balance ;;
      (* Record transaction *)
      now <- utcnow ;;
      insert_transaction (fun id =>
        {| t_id := id;
           t_user_id := u_id user;
           t_type := debit;
           t_amount := amount;
           t_description := or_default (j_description data) "Withdrawal";
           t_balance_after := new_balance;
           t_related_account := None;
           t_is_flagged := Fraud.is_fraud fraud_result;
           t_fraud_score := Fraud.fraud_score fraud_result;
           t_timestamp := now |}) ;;
      send_transaction_alert_email (u_email user) (u_name user) debit amount
        new_balance ;;
      log_action rq (u_id user) "user" "withdrawal" None
        [("amount", PNum amount);
         ("fraud_flagged", PBool (Fraud.is_fraud fraud_result))] ;;
      ret (Json (WithdrawOk amount new_balance
                   (if Fraud.is_fraud fraud_result
                    then Some "This transaction has been flagged for review"
                    else None)) 200)).

(** [not to_account]: the key is absent or the string is empty. *)
Definition falsy_string (s : option string) : bool :=
  match s with
  | None => true
  | Some s' => String.eqb s' ""
  end.

Definition transfer (rq : Request) : Handler Response :=
  jwt_required rq (fun identity =>
  let data := json rq in
  let amount := or_default (j_amount data) 0 in
  let to_account := or_default (j_to_account_number data) "" in
  if falsy_string (j_to_account_number data) then
    reply (Error "Recipient account number required") 400
  else if Qle_bool amount 0 then
    reply (Error "Amount must be greater than 0") 400
  else
    sender_found <-
      find_user (fun u => Nat.eqb (u_id u) (i_user_id identity)) ;;
    recipient_found <-
      find_user (fun u => String.eqb (u_account_number u) to_account) ;;
    match recipient_found with
    | None => reply (Error "Recipient account not found") 404
    | Some recipient =>
        sender <- subscript sender_found ;;
        if Nat.eqb (u_id sender) (u_id recipient) then
          reply (Error "Cannot transfer to own account") 400
        else if Qlt_bool (u_balance sender) amount then
          reply (Error "Insufficient balance") 400
        else
          let sender_new_balance := u_balance sender - amount in
          let recipient_new_balance := u_balance recipient + amount in
          (* Debit sender *)
          update_balance (u_id sender) sender_new_balance ;;
          (* Credit recipient *)
          update_balance (u_id recipient) recipient_new_balance ;;
          now <- utcnow ;;
          let note := or_default (j_description data) "" in
          (* Sender transaction *)
          insert_transaction (fun id =>
            {| t_id := id;
               t_user_id := u_id sender;
               t_type := debit;
               t_amount := amount;
               t_description :=
                 String.append "Transfer to "
                   (String.append (u_account_number recipient)
                      (String.append " - " note));
               t_balance_after := sender_new_balance;
               t_related_account := Some to_account;
               t_is_flagged := false;
               t_fraud_score := 0;
               t_timestamp := now |}) ;;
          (* Recipient transaction *)
          insert_transaction (fun id =>
            {| t_id := id;
               t_user_id := u_id recipient;
               t_type := credit;
               t_amount := amount;
               t_description :=
                 String.append "Transfer from "
                   (String.append (u_account_number sender)
                      (String.append " - " note));
               t_balance_after := recipient_new_balance;
               t_related_account := Some (u_account_number sender);
               t_is_flagged := false;
               t_fraud_score := 0;
               t_timestamp := now |}) ;;
          send_transaction_alert_email (u_email sender) (u_name sender) debit
            amount sender_new_balance ;;
          send_transaction_alert_email (u_email recipient) (u_name recipient)
            credit amount recipient_new_balance ;;
          log_action rq (u_id sender) "user" "transfer" None
            [("amount", PNum amount); ("to_account", PStr to_account)] ;;
          ret (Json (TransferOk amount (u_name recipient) sender_new_balance)
                 200)
    end).

(** ** app/services/token.py and the access-delegation routes *)

(** The payload of a permission token. *)
Record Claims := {
  c_admin_id : ObjectId;
  c_user_id : ObjectId;
  c_request_id : ObjectId;
  c_type : string;
  c_iat : datetime;
  c_exp : datetime
}.

(** The three ways [jwt.decode] ends. *)
Inductive JwtDecode :=
| Decoded (payload : Claims)
| ExpiredSignatureError
| InvalidTokenError.

(** The PyJWT library, HS256: [jwt_decode token key now]. *)
Record JwtLib := {
  jwt_encode : Claims -> string -> string;
  jwt_decode : string -> string -> datetime -> JwtDecode
}.

Definition set_status (s : Status) (r : AccessRequest) : AccessRequest :=
  {| r_id := r_id r; r_admin_id := r_admin_id r;
     r_admin_name := r_admin_name r; r_user_id := r_user_id r;
     r_reason := r_reason r; r_status := s;
     r_permission_token := r_permission_token r;
     r_requested_at := r_requested_at r; r_expires_at := r_expires_at r;
     r_granted_at := r_granted_at r; r_denied_at := r_denied_at r |}.

Definition set_granted (token : string) (at_ : datetime) (r : AccessRequest)
  : AccessRequest :=
  {| r_id := r_id r; r_admin_id := r_admin_id r;
     r_admin_name := r_admin_name r; r_user_id := r_user_id r;
     r_reason := r_reason r; r_status := granted;
     r_permission_token := Some token;
     r_requested_at := r_requested_at r; r_expires_at := r_expires_at r;
     r_granted_at := Some at_; r_denied_at := r_denied_at r |}.

Definition set_denied (at_ : datetime) (r : AccessRequest) : AccessRequest :=
  {| r_id := r_id r; r_admin_id := r_admin_id r;
     r_admin_name := r_admin_name r; r_user_id := r_user_id r;
     r_reason := r_reason r; r_status := denied;
     r_permission_token := r_permission_token r;
     r_requested_at := r_requested_at r; r_expires_at := r_expires_at r;
     r_granted_at := r_granted_at r; r_denied_at := Some at_ |}.

(** [access_requests.update_one({"_id": id}, {"$set": ...})] *)
Definition update_access_request (id : ObjectId)
  (set : AccessRequest -> AccessRequest) : Handler unit :=
  modify (set_access_requests (update_one (fun r => Nat.eqb (r_id r) id) set)).

(** [str.strip()] on the ASCII white space. *)
Definition is_space (c : Ascii.ascii) : bool :=
  let n := Ascii.nat_of_ascii c in
  ((9 <=? n) && (n <=? 13) || (28 <=? n) && (n <=? 32))%nat.

Fixpoint lstrip (s : list Ascii.ascii) : list Ascii.ascii :=
  match s with
  | [] => []
  | c :: rest => if is_space c then lstrip rest else s
  end.

Definition strip (s : string) : string :=
  string_of_list_ascii
    (rev (lstrip (rev (lstrip (list_ascii_of_string s))))).

(** [sort=[("timestamp", -1)]]: newest first, insertion order among equals. *)
Fixpoint insert_newest (t : Transaction) (l : list Transaction)
  : list Transaction :=
  match l with
  | [] => [t]
  | x :: rest =>
      if Z.ltb (t_timestamp x) (t_timestamp t) then t :: l
      else x :: insert_newest t rest
  end.

Definition newest_first (l : list Transaction) : list Transaction :=
  fold_left (fun acc t => insert_newest t acc) l [].

(** [@admin_required] *)
Definition admin_required (rq : Request) (fn : Identity -> Handler Response)
  : Handler Response :=
  jwt_required rq (fun who =>
    if negb (String.eqb (i_role who) "admin") then
      reply (Error "Admin access required") 403
    else fn who).

Section AccessDelegation.

Variable jwt : JwtLib.
Variable PERMISSION_SECRET : string.

Definition generate_permission_token (admin_id user_id request_id : ObjectId)
  : Handler string :=
  iat <- utcnow ;;
  exp0 <- utcnow ;;
  let payload :=
    {| c_admin_id := admin_id;
       c_user_id := user_id;
       c_request_id := request_id;
       c_type := "admin_permission";
       c_iat := iat;
       c_exp := (exp0 + 30 * minute)%Z |} in
  ret (jwt_encode jwt payload PERMISSION_SECRET).

Definition verify_permission_token (token : string)
  : Handler (option Claims) :=
  now <- utcnow ;;
  match jwt_decode jwt token PERMISSION_SECRET now with
  | Decoded payload => ret (Some payload)
  | ExpiredSignatureError => ret None
  | InvalidTokenError => ret None
  end.

(** *** app/routes/admin.py *)

Definition request_access (rq : Request) (user_id : ObjectId)
  : Handler Response :=
  admin_required rq (fun identity =>
  let data := json rq in
  let reason := strip (or_default (j_reason data) "") in
  if String.eqb reason "" || (String.length reason <? 10)%nat then
    reply (Error "Please provide a detailed reason (min 10 characters)") 400
  else
    user_found <- find_user (fun u => Nat.eqb (u_id u) user_id
                                      && String.eqb (u_role u) "user") ;;
    match user_found with
    | None => reply (Error "User not found") 404
    | Some user =>
        (* Check if there's already a pending request from this admin *)
        existing <- find_access_request (fun r =>
          Nat.eqb (r_admin_id r) (i_user_id identity)
          && Nat.eqb (r_user_id r) user_id
          && status_eqb (r_status r) pending) ;;
        match existing with
        | Some _ =>
            reply (Error "You already have a pending request for this user")
              409
        | None =>
            (* Create access request (expires in 24 hours) *)
            requested_at <- utcnow ;;
            t_exp <- utcnow ;;
            let expires_at := (t_exp + 24 * hour_us)%Z in
            request_id <- insert_access_request (fun id =>
              {| r_id := id;
                 r_admin_id := i_user_id identity;
                 r_admin_name := i_name identity;
                 r_user_id := user_id;
                 r_reason := reason;
                 r_status := pending;
                 r_permission_token := None;
                 r_requested_at := requested_at;
                 r_expires_at := expires_at;
                 r_granted_at := None;
                 r_denied_at := None |}) ;;
            (* Send notification email to user *)
            email_sent <- send_access_request_email (u_email user)
                            (u_name user) (i_name identity) reason request_id ;;
            log_action rq (i_user_id identity) "admin" "request_account_access"
              (Some user_id)
              [("reason", PStr reason); ("request_id", id_num request_id)] ;;
            ret (Json (RequestAccessOk request_id email_sent expires_at) 201)
        end
    end).

Definition view_user_account (rq : Request) (user_id : ObjectId)
  : Handler Response :=
  admin_required rq (fun identity =>
  if falsy_string (x_permission_token rq) then
    reply (Error "Permission token required in X-Permission-Token header") 401
  else
    let permission_token := or_default (x_permission_token rq) "" in
    (* Verify the permission token *)
    verified <- verify_permission_token permission_token ;;
    match verified with
    | None => reply (Error "Invalid or expired permission token") 401
    | Some payload =>
        (* Ensure token is for this specific admin and user *)
        if negb (Nat.eqb (c_admin_id payload) (i_user_id identity))
           || negb (Nat.eqb (c_user_id payload) user_id) then
          reply (Error "Permission token does not match this request") 403
        else
          (* Verify the access request is still granted in DB *)
          req <- find_access_request (fun r =>
            Nat.eqb (r_id r) (c_request_id payload)
            && status_eqb (r_status r) granted) ;;
          match req with
          | None =>
              reply (Error "Access has been revoked or request not found") 403
          | Some _ =>
              user_found <- find_user (fun u => Nat.eqb (u_id u) user_id) ;;
              match user_found with
              | None => reply (Error "User not found") 404
              | Some user =>
                  (* Get recent transactions *)
                  recent <- gets (fun w =>
                    firstn 20
                      (newest_first
                         (List.filter
                            (fun t => Nat.eqb (t_user_id t) user_id)
                            (transactions w)))) ;;
                  log_action rq (i_user_id identity) "admin"
                    "viewed_user_account" (Some user_id)
                    [("request_id", id_num (c_request_id payload))] ;;
                  ret (Json (AccountView user recent
                               "This access is logged and monitored.") 200)
              end
          end
    end).

(** *** app/routes/user.py: the owner's decision *)

(** Neither route is wrapped by [jwt_required]: they are reached by the
    links of the notification mail, and read no caller identity. *)
Definition grant_access (rq : Request) (request_id : ObjectId)
  : Handler Response :=
  found <- find_access_request (fun r => Nat.eqb (r_id r) request_id) ;;
  match found with
  | None => reply (Error "Access request not found") 404
  | Some req =>
      if negb (status_eqb (r_status req) pending) then
        reply (Error (String.append "Request already "
                        (status_name (r_status req)))) 400
      else
        (* Check if expired *)
        now <- utcnow ;;
        if Z.ltb (r_expires_at req) now then
          update_access_request request_id (set_status expired) ;;
          reply (Error "Access request has expired") 410
        else
          (* Generate permission token *)
          permission_token <-
            generate_permission_token (r_admin_id req) (r_user_id req)
              request_id ;;
          granted_at <- utcnow ;;
          update_access_request request_id
            (set_granted permission_token granted_at) ;;
          (* Notify admin *)
          admin <- find_user (fun u => Nat.eqb (u_id u) (r_admin_id req)) ;;
          user <- find_user (fun u => Nat.eqb (u_id u) (r_user_id req)) ;;
          match admin, user with
          | Some a, Some u =>
              send_access_decision_email (u_email a) (u_name a) (u_name u)
                "granted" ;;
              ret tt
          | _, _ => ret tt
          end ;;
          log_action rq (r_user_id req) "user" "grant_admin_access" None
            [("request_id", id_num request_id)] ;;
          ret (Json (GrantOk "30 minutes") 200)
  end.

Definition deny_access (rq : Request) (request_id : ObjectId)
  : Handler Response :=
  found <- find_access_request (fun r => Nat.eqb (r_id r) request_id) ;;
  match found with
  | None => reply (Error "Access request not found") 404
  | Some req =>
      if negb (status_eqb (r_status req) pending) then
        reply (Error (String.append "Request already "
                        (status_name (r_status req)))) 400
      else
        denied_at <- utcnow ;;
        update_access_request request_id (set_denied denied_at) ;;
        admin <- find_user (fun u => Nat.eqb (u_id u) (r_admin_id req)) ;;
        user <- find_user (fun u => Nat.eqb (u_id u) (r_user_id req)) ;;
        match admin, user with
        | Some a, Some u =>
            send_access_decision_email (u_email a) (u_name a) (u_name u)
              "denied" ;;
            ret tt
        | _, _ => ret tt
        end ;;
        log_action rq (r_user_id req) "user" "deny_admin_access" None
          [("request_id", id_num request_id)] ;;
        ret (Json DenyOk 200)
  end.

End AccessDelegation.

(** ** The error kinds of the specification, as the routes answer them *)


Definition InsufficientFunds : Response :=
  Json (Error "Insufficient balance") 400.




Definition RequestExpired : Response :=
  Json (Error "Access request has expired") 410.

Definition TokenInvalid : Response :=
  Json (Error "Invalid or expired permission token") 401.

Definition TokenMismatch : Response :=
  Json (Error "Permission token does not match this request") 403.

Definition AccessRevoked : Response :=
  Json (Error "Access has been revoked or request not found") 403.

(** A handler succeeded when it answered 200 or 201. *)
Definition succeeded (r : Response) : bool :=
  match r with
  | Json _ status => Z.eqb status 200 || Z.eqb status 201
  | _ => false
  end.

(** ** Observations on a world *)

(** The account with a given [_id], as [find_one] sees it. *)
Definition account (id : ObjectId) (w : World) : option User :=
  find (fun u => Nat.eqb (u_id u) id) (users w).

Definition balance_of (id : ObjectId) (w : World) : option Q :=
  option_map u_balance (account id w).

Definition request_of (id : ObjectId) (w : World) : option AccessRequest :=
  find (fun r => Nat.eqb (r_id r) id) (access_requests w).

Definition status_of (id : ObjectId) (w : World) : option Status :=
  option_map r_status (request_of id w).

(** The pending requests of one admin for one account. *)
Definition pending_for (admin_id user_id : ObjectId) (r : AccessRequest)
  : bool :=
  Nat.eqb (r_admin_id r) admin_id && Nat.eqb (r_user_id r) user_id
  && status_eqb (r_status r) pending.


(** The same-day count that [withdraw] hands to the scorer. *)
Definition same_day_count (user_id : ObjectId) (now : datetime) (w : World)
  : nat :=
  count_documents
    (fun t => Nat.eqb (t_user_id t) user_id
              && Z.leb (replace_hms0 now) (t_timestamp t))
    (transactions w).

(** The verdict [withdraw] obtains in world [w] for [user]: the hour is
    the first reading of the clock, the day that of the second. *)
Definition withdraw_verdict (w : World) (user : User) (amount : Q)
  : Fraud.Verdict :=
  Fraud.predict_fraud (model_file w)
    (Fraud.numeric_data amount
       (inject_Z (hour_of (clock w (ticks w))))
       (u_balance user)
       (inject_Z (Z.of_nat
          (same_day_count (u_id user) (clock w (S (ticks w))) w)))).


(** The target of [request_access]: a document with that [_id] and the
    role of a user. *)
Definition user_account (user_id : ObjectId) (w : World) : option User :=
  find (fun u => Nat.eqb (u_id u) user_id && String.eqb (u_role u) "user")
    (users w).

(** A handler keeps a property of the access-request collection. *)
Definition keeps (P : list AccessRequest -> Prop) {A} (h : Handler A)
  : Prop :=
  forall w, P (access_requests w) -> P (access_requests (snd (h w))).

(** [request_access]'s test on the stripped reason. *)
Definition reason_ok (rq : Request) : bool :=
  let reason := strip (or_default (j_reason (json rq)) "") in
  negb (String.eqb reason "" || (String.length reason <? 10)%nat).

(** ** The service as a whole *)

Section Service.

Variable jwt : JwtLib.
Variable PERMISSION_SECRET : string.

(** One HTTP call to one of the modelled routes. *)
Inductive Call :=
| CallDeposit (rq : Request)
| CallWithdraw (rq : Request)
| CallTransfer (rq : Request)
| CallRequestAccess (rq : Request) (user_id : ObjectId)
| CallViewUserAccount (rq : Request) (user_id : ObjectId)
| CallGrantAccess (rq : Request) (request_id : ObjectId)
| CallDenyAccess (rq : Request) (request_id : ObjectId).

Definition serve (c : Call) : Handler Response :=
  match c with
  | CallDeposit rq => deposit rq
  | CallWithdraw rq => withdraw rq
  | CallTransfer rq => transfer rq
  | CallRequestAccess rq user_id => request_access rq user_id
  | CallViewUserAccount rq user_id =>
      view_user_account jwt PERMISSION_SECRET rq user_id
  | CallGrantAccess rq request_id =>
      grant_access jwt PERMISSION_SECRET rq request_id
  | CallDenyAccess rq request_id => deny_access rq request_id
  end.

(** The worlds the service can be in after any sequence of calls. *)
Inductive reachable (w0 : World) : World -> Prop :=
| reach_start : reachable w0 w0
| reach_call w c :
    reachable w0 w -> reachable w0 (snd (run (serve c) w)).

End Service.

(** Whether a call is an owner's decision. *)
Definition is_decision (c : Call) : bool :=
  match c with
  | CallGrantAccess _ _ | CallDenyAccess _ _ => true
  | _ => false
  end.

(** ** Proof plumbing *)

(** Unfold the plumbing of a handler down to the reads and writes. *)
Ltac step_handler :=
  cbv beta iota zeta delta
    [run jwt_required admin_required bind ret reply raise gets modify
     subscript find_user find_access_request update_balance utcnow
     insert_transaction insert_access_request fresh_id
     send_transaction_alert_email send_access_decision_email
     send_access_request_email mail_send log_action update_access_request].

(** Reduce projections and setters applied to an explicit world. *)
Ltac world_simpl :=
  cbv beta iota delta
    [users transactions access_requests audit_logs next_id clock ticks
     mail_up outbox model_file set_users set_transactions
     set_access_requests set_audit_logs set_next_id set_ticks set_outbox
     fst snd].

(** ** A small bank, used to run the handlers on concrete inputs *)

Module Sample.

Definition alice : User :=
  {| u_id := 1; u_name := "Alice"; u_email := "alice@example.org";
     u_phone := "5550001"; u_account_number := "ACC0000000001";
     u_balance := 1500; u_role := "user"; u_is_active := true;
     u_created_at := 0 |}.

Definition bob : User :=
  {| u_id := 2; u_name := "Bob"; u_email := "bob@example.org";
     u_phone := "5550002"; u_account_number := "ACC0000000002";
     u_balance := 250; u_role := "user"; u_is_active := true;
     u_created_at := 0 |}.

Definition mallory : User :=
  {| u_id := 3; u_name := "Mallory"; u_email := "mallory@example.org";
     u_phone := "5550003"; u_account_number := "ACC0000000003";
     u_balance := 0; u_role := "admin"; u_is_active := true;
     u_created_at := 0 |}.

(** Midnight of some day, and half past two that night. *)
Definition midnight : datetime := (20000 * day_us)%Z.
Definition half_past_two : datetime :=
  (midnight + 2 * hour_us + 30 * minute)%Z.

(** Alice's [k]-th movement of the day, [k] minutes after midnight. *)
Definition movement (k : nat) : Transaction :=
  {| t_id := 10 + k; t_user_id := 1; t_type := credit; t_amount := 1;
     t_description := "Deposit"; t_balance_after := 1500;
     t_related_account := None; t_is_flagged := false; t_fraud_score := 0;
     t_timestamp := (midnight + Z.of_nat k * minute)%Z |}.

(** Readings of the clock one second apart, from half past two. *)
Definition night_clock (n : nat) : datetime :=
  (half_past_two + Z.of_nat n * second)%Z.

Definition world : World :=
  {| users := [alice; bob; mallory];
     transactions := List.map movement (seq 1 12);
     access_requests := [];
     audit_logs := [];
     next_id := 100;
     clock := night_clock;
     ticks := 0;
     mail_up := true;
     outbox := [];
     model_file := Fraud.NoFile |}.


Definition no_json : JsonBody :=
  {| j_amount := None; j_description := None;
     j_to_account_number := None; j_reason := None |}.

Definition amount_json (a : Q) : JsonBody :=
  {| j_amount := Some a; j_description := None;
     j_to_account_number := None; j_reason := None |}.

Definition transfer_json (a : Q) (to : string) : JsonBody :=
  {| j_amount := Some a; j_description := Some "rent";
     j_to_account_number := Some to; j_reason := None |}.


Definition login (u : User) : Identity :=
  {| i_user_id := u_id u; i_role := u_role u; i_name := u_name u |}.

Definition request_from (who : option Identity) (body : JsonBody)
  (token : option string) : Request :=
  {| identity := who; json := body; x_permission_token := token;
     remote_addr := "203.0.113.7"; user_agent := None |}.

(** Mallory's request 100 for Alice's account, asked at midnight. *)
Definition request_100 (s : Status) : AccessRequest :=
  {| r_id := 100; r_admin_id := 3; r_admin_name := "Mallory";
     r_user_id := 1; r_reason := "Suspicious activity review";
     r_status := s; r_permission_token := None;
     r_requested_at := midnight;
     r_expires_at := (midnight + 24 * hour_us)%Z;
     r_granted_at := None; r_denied_at := None |}.

(** The same request, asked two days earlier: its 24 hours are over. *)
Definition stale_request_100 : AccessRequest :=
  {| r_id := 100; r_admin_id := 3; r_admin_name := "Mallory";
     r_user_id := 1; r_reason := "Suspicious activity review";
     r_status := pending; r_permission_token := None;
     r_requested_at := (midnight - 48 * hour_us)%Z;
     r_expires_at := (midnight - 24 * hour_us)%Z;
     r_granted_at := None; r_denied_at := None |}.

Definition world_with (r : AccessRequest) : World :=
  set_next_id 101 (set_access_requests (fun _ => [r]) world).

(** A stand-in for PyJWT: the one token it knows carries Mallory's grant
    on request 100 and lapses at three o'clock. *)
Definition claims_100 : Claims :=
  {| c_admin_id := 3; c_user_id := 1; c_request_id := 100;
     c_type := "admin_permission"; c_iat := half_past_two;
     c_exp := (half_past_two + 30 * minute)%Z |}.

Definition toy_jwt : JwtLib :=
  {| jwt_encode := fun _ _ => "token-100";
     jwt_decode := fun token key now =>
       if String.eqb token "token-100" && String.eqb key "s3cret" then
         if Z.ltb (c_exp claims_100) now then ExpiredSignatureError
         else Decoded claims_100
       else InvalidTokenError |}.

End Sample.

(** * Further observations, used by the properties beyond the claims *)

From Stdlib Require Import Permutation Sorted.


(** The money held by all accounts together. *)
Definition total_balance (l : list User) : Q :=
  fold_right (fun u acc => u_balance u + acc) 0 l.

(** The same world with the mail server up or down. *)
Definition set_mail_up (up : bool) (w : World) : World :=
  {| users := users w; transactions := transactions w;
     access_requests := access_requests w; audit_logs := audit_logs w;
     next_id := next_id w; clock := clock w; ticks := ticks w;
     mail_up := up; outbox := outbox w; model_file := model_file w |}.

(** A handler leaves an observation of the world as it was. *)
Definition leaves {X A} (obs : World -> X) (h : Handler A) : Prop :=
  forall w, obs (snd (h w)) = obs w.

(** The claims [grant_access] signs for request [req] in world [w]: the
    expiry check takes the first reading of the clock, the token the next
    two. *)
Definition issued_claims (w : World) (req : AccessRequest)
  (request_id : ObjectId) : Claims :=
  {| c_admin_id := r_admin_id req;
     c_user_id := r_user_id req;
     c_request_id := request_id;
     c_type := "admin_permission";
     c_iat := clock w (1 + ticks w);
     c_exp := (clock w (2 + ticks w) + 30 * minute)%Z |}.

(** The document [request_access] inserts in world [w]. *)
Definition created_request (w : World) (who : Identity) (user_id : ObjectId)
  (reason : string) : AccessRequest :=
  {| r_id := next_id w;
     r_admin_id := i_user_id who;
     r_admin_name := i_name who;
     r_user_id := user_id;
     r_reason := reason;
     r_status := pending;
     r_permission_token := None;
     r_requested_at := clock w (ticks w);
     r_expires_at := (clock w (S (ticks w)) + 24 * hour_us)%Z;
     r_granted_at := None;
     r_denied_at := None |}.

(** A request carries a token exactly when it is granted. *)
Definition token_iff_granted (r : AccessRequest) : Prop :=
  r_status r = granted <-> r_permission_token r <> None.

(** The mail [grant_access] and [deny_access] send: only when both the
    admin and the owner are found and the mail server is up. *)
Definition decision_mail (w : World) (req : AccessRequest)
  (decision : string) : list Mail :=
  match account (r_admin_id req) w, account (r_user_id req) w with
  | Some a, Some u =>
      if mail_up w
      then [AccessDecisionMail (u_email a) (u_name a) (u_name u) decision]
      else []
  | _, _ => []
  end.

(** [a] is at least as new as [b]. *)
Definition newer_first (a b : Transaction) : Prop :=
  (t_timestamp b <= t_timestamp a)%Z.

(** * Further routes *)

(** Routes that answer with something other than a [Body] return their
    payload: [Next payload] stands for [jsonify(payload), 200]. *)

(** [@jwt_required()] and [@admin_required] in front of such a route. *)
Definition login_only {A} (rq : Request) (fn : Identity -> Handler A)
  : Handler A :=
  match identity rq with
  | Some who => fn who
  | None => fun w => (Reply MissingLogin, w)
  end.

Definition admin_only {A} (rq : Request) (fn : Identity -> Handler A)
  : Handler A :=
  login_only rq (fun who =>
    if negb (String.eqb (i_role who) "admin") then
      reply (Error "Admin access required") 403
    else fn who).

(** ** app/routes/admin.py: [toggle_account] *)

Definition set_is_active (b : bool) (u : User) : User :=
  {| u_id := u_id u; u_name := u_name u; u_email := u_email u;
     u_phone := u_phone u; u_account_number := u_account_number u;
     u_balance := u_balance u; u_role := u_role u; u_is_active := b;
     u_created_at := u_created_at u |}.

(** The payload is the new [is_active]. *)
Definition toggle_account (rq : Request) (user_id : ObjectId)
  : Handler bool :=
  admin_only rq (fun identity =>
    found <- find_user (fun u => Nat.eqb (u_id u) user_id
                                 && String.eqb (u_role u) "user") ;;
    match found with
    | None => reply (Error "User not found") 404
    | Some user =>
        let new_status := negb (u_is_active user) in
        modify (set_users
                  (update_one (fun u => Nat.eqb (u_id u) (u_id user))
                     (set_is_active new_status))) ;;
        let action := if new_status then "activated_account"
                      else "deactivated_account" in
        log_action rq (i_user_id identity) "admin" action (Some user_id) [] ;;
        ret new_status
    end)%handler.

(** ** app/routes/admin.py: [check_access_status] *)

Record AccessStatus := {
  s_request_id : ObjectId;
  s_status : Status;
  s_requested_at : datetime;
  s_expires_at : datetime;
  s_granted_at : option datetime;
  s_permission_token : option string
}.

Definition check_access_status (rq : Request) (request_id : ObjectId)
  : Handler AccessStatus :=
  admin_only rq (fun identity =>
    found <- find_access_request (fun r =>
      Nat.eqb (r_id r) request_id
      && Nat.eqb (r_admin_id r) (i_user_id identity)) ;;
    match found with
    | None => reply (Error "Access request not found") 404
    | Some req =>
        ret {| s_request_id := request_id;
               s_status := r_status req;
               s_requested_at := r_requested_at req;
               s_expires_at := r_expires_at req;
               s_granted_at := r_granted_at req;
               s_permission_token :=
                 if status_eqb (r_status req) granted
                 then r_permission_token req else None |}
    end)%handler.

(** ** app/routes/user.py: [get_transactions] *)

(** [find(filter, sort=..., skip=s, limit=n)] on the sorted matches: a
    negative [skip] is refused, a [limit] of zero means no limit, and a
    negative [limit] is read as its absolute value. *)
Definition mongo_window {A} (skip limit : Z) (l : list A)
  : option (list A) :=
  if (skip <? 0)%Z then None
  else
    let rest := skipn (Z.to_nat skip) l in
    Some (if (limit =? 0)%Z then rest
          else firstn (Z.to_nat (Z.abs limit)) rest).

Record TransactionsPage := {
  pg_transactions : list Transaction;
  pg_total : Z;
  pg_page : Z;
  pg_pages : Z
}.

(** The ways the route ends without a page: no login, the exception of a
    negative [skip], and the division by a [limit] of zero. *)
Inductive PageError :=
| PageMissingLogin
| PageSkipRefused
| PageZeroDivision.

(** The route reads and never writes: it is a function of the world.
    [page] and [limit] are the parsed query arguments. *)
Definition get_transactions (rq : Request) (page limit : Z) (w : World)
  : PageError + TransactionsPage :=
  match identity rq with
  | None => inl PageMissingLogin
  | Some who =>
      let skip := ((page - 1) * limit)%Z in
      let mine := fun t => Nat.eqb (t_user_id t) (i_user_id who) in
      match mongo_window skip limit
              (newest_first (List.filter mine (transactions w))) with
      | None => inl PageSkipRefused
      | Some found =>
          let total :=
            Z.of_nat (count_documents mine (transactions w)) in
          if (limit =? 0)%Z then inl PageZeroDivision
          else inr {| pg_transactions := found;
                      pg_total := total;
                      pg_page := page;
                      pg_pages := ((total + limit - 1) / limit)%Z |}
      end
  end.

(** The first [pages] pages of size [limit], one after the other. *)
Definition pages_in_order (rq : Request) (limit : Z) (w : World)
  (pages : nat) : list Transaction :=
  List.concat
    (List.map
       (fun k =>
          match get_transactions rq (Z.of_nat (S k)) limit w with
          | inr p => pg_transactions p
          | inl _ => []
          end)
       (seq 0 pages)).

(** ** app/ml_models/loan_eligibility.py *)

(** [a >= b] and the product of two numbers.  A product with a string
    operand raises here; in the scorer below the only multiplications are
    by the float 0.3, where Python raises as well, and of a balance that
    has already been compared with a number. *)
Definition py_ge (a b : pyval) : exc bool := py_le b a.

Definition py_mul (a b : pyval) : exc pyval :=
  match as_num a, as_num b with
  | Some x, Some y => eret (PNum (x * y))
  | _, _ => eraise TypeError
  end.

(** [round(q, 2)] and [int(q)] (towards zero). *)
Definition py_round2 (q : Q) : Q := round_half_even (q * 100) # 100.

Definition py_int (q : Q) : Z :=
  if Qle_bool 0 q then Qfloor q else Qceiling q.

Module Loan.

Record ApplicantData := {
  l_average_balance : option pyval;
  l_account_age_days : option pyval;
  l_monthly_transaction_count : option pyval;
  l_requested_amount : option pyval
}.

Record Verdict := {
  eligible : bool;
  score : Z;
  confidence : Q;
  reasons : list string;
  model : string
}.

Local Open Scope exc_scope.

Definition _rule_based_loan_score (data : ApplicantData) : exc Verdict :=
  let score := 0%Z in
  let reasons : list string := [] in
  let balance := Fraud.get (l_average_balance data) (PNum 0) in
  let account_age_days := Fraud.get (l_account_age_days data) (PNum 0) in
  let txn_count :=
    Fraud.get (l_monthly_transaction_count data) (PNum 0) in
  let loan_amount := Fraud.get (l_requested_amount data) (PNum 0) in
  (* Balance check *)
  part <- py_mul loan_amount (PNum (3 # 10)) ;;
  enough <- py_ge balance part ;;
  let '(score, reasons) :=
    if enough then ((score + 30)%Z, reasons)
    else (score,
          reasons ++ ["Low average balance relative to loan amount"]) in
  (* Account age check *)
  old <- py_ge account_age_days (PNum 180) ;;
  aged <- (if old then eret ((score + 25)%Z, reasons)
           else
             settled <- py_ge account_age_days (PNum 90) ;;
             if settled then
               eret ((score + 15)%Z,
                     reasons ++ ["Account is relatively new"])
             else
               eret (score,
                     reasons ++ ["Account too new (less than 90 days)"])) ;;
  let '(score, reasons) := aged in
  (* Transaction activity *)
  active <- py_ge txn_count (PNum 10) ;;
  busy <- (if active then eret ((score + 25)%Z, reasons)
           else
             some <- py_ge txn_count (PNum 5) ;;
             if some then
               eret ((score + 15)%Z, reasons ++ ["Low transaction activity"])
             else
               eret (score, reasons ++ ["Very low transaction activity"])) ;;
  let '(score, reasons) := busy in
  (* Loan amount vs balance ratio *)
  triple <- py_mul balance (PNum 3) ;;
  small <- py_le loan_amount triple ;;
  sized <- (if small then eret ((score + 20)%Z, reasons)
            else
              sixfold <- py_mul balance (PNum 6) ;;
              medium <- py_le loan_amount sixfold ;;
              if medium then
                eret ((score + 10)%Z,
                      reasons ++ ["High loan-to-balance ratio"])
              else
                eret (score,
                      reasons
                      ++ ["Loan amount too high relative to balance"])) ;;
  let '(score, reasons) := sized in
  let eligible := (60 <=? score)%Z in
  eret {| eligible := eligible;
          score := score;
          confidence := py_round2 (inject_Z score / 100);
          reasons := if negb eligible then reasons
                     else ["Good account history"; "Sufficient balance"];
          model := "rule_based" |}.

(** A pickled logistic regression; [predict_proba] stands for the
    probability of class 1, [proba[1]]. *)
Record Model := {
  predict : list pyval -> exc Z;
  predict_proba : list pyval -> exc Q
}.

Inductive ModelFile :=
| NoFile
| Corrupt (e : PyExn)
| Pickled (m : Model).

(** The body of the [try] block. *)
Definition predict_loan_try (file : ModelFile) (applicant_data : ApplicantData)
  : exc Verdict :=
  match file with
  | Corrupt e => eraise e
  | Pickled m =>
      let features :=
        [ Fraud.get (l_average_balance applicant_data) (PNum 0);
          Fraud.get (l_account_age_days applicant_data) (PNum 0);
          Fraud.get (l_monthly_transaction_count applicant_data) (PNum 0);
          Fraud.get (l_requested_amount applicant_data) (PNum 0) ] in
      prediction <- predict m features ;;
      proba <- predict_proba m features ;;
      eret {| eligible := Z.eqb prediction 1;
              score := py_int (proba * 100);
              confidence := py_round2 proba;
              reasons := [];
              model := "logistic_regression" |}
  | NoFile => _rule_based_loan_score applicant_data
  end.

(** The [except Exception] branch scores by the rules again, and that
    call is not guarded. *)
Definition predict_loan_eligibility (file : ModelFile)
  (applicant_data : ApplicantData) : exc Verdict :=
  match predict_loan_try file applicant_data with
  | inr verdict => inr verdict
  | inl _ => _rule_based_loan_score applicant_data
  end.

Definition numeric_data (balance age txn_count loan : Q) : ApplicantData :=
  {| l_average_balance := Some (PNum balance);
     l_account_age_days := Some (PNum age);
     l_monthly_transaction_count := Some (PNum txn_count);
     l_requested_amount := Some (PNum loan) |}.

(** The points of the four checks. *)
Definition balance_points (balance loan : Q) : Z :=
  if Qle_bool (loan * (3 # 10)) balance then 30 else 0.

Definition age_points (age : Q) : Z :=
  if Qle_bool 180 age then 25 else if Qle_bool 90 age then 15 else 0.

Definition activity_points (txn_count : Q) : Z :=
  if Qle_bool 10 txn_count then 25
  else if Qle_bool 5 txn_count then 15 else 0.

Definition ratio_points (balance loan : Q) : Z :=
  if Qle_bool loan (balance * 3) then 20
  else if Qle_bool loan (balance * 6) then 10 else 0.

(** How many of the four checks score at all. *)
Definition checks_scoring (balance age txn_count loan : Q) : nat :=
  (if (0 <? balance_points balance loan)%Z then 1 else 0)
  + (if (0 <? age_points age)%Z then 1 else 0)
  + (if (0 <? activity_points txn_count)%Z then 1 else 0)
  + (if (0 <? ratio_points balance loan)%Z then 1 else 0).

End Loan.

(** ** app/routes/ml.py: [credit_score] and [fraud_check] *)

Record CreditFactor := {
  f_factor : string;
  f_points : Z;
  f_max : Z
}.

Record CreditScore := {
  cs_credit_score : Z;
  cs_rating : string;
  cs_color : string;
  cs_factors : list CreditFactor
}.

(** [(a - b).days] *)
Definition days_between (a b : datetime) : Z := ((a - b) / day_us)%Z.

Definition sum_balances (l : list Transaction) : Q :=
  fold_left (fun acc t => acc + t_balance_after t) l 0.

Definition credit_score (rq : Request) : Handler CreditScore :=
  login_only rq (fun identity =>
    found <- find_user (fun u => Nat.eqb (u_id u) (i_user_id identity)) ;;
    match found with
    | None => reply (Error "User not found") 404
    | Some user =>
        all_transactions <- gets (fun w =>
          List.filter (fun t => Nat.eqb (t_user_id t) (i_user_id identity))
            (transactions w)) ;;
        let score := 300%Z in
        (* 1. Account age (up to 100 points) *)
        now <- utcnow ;;
        let account_age_days := days_between now (u_created_at user) in
        let age_score := Z.min 100 (account_age_days / 3) in
        let score := (score + age_score)%Z in
        (* 2. Balance consistency (up to 150 points) *)
        let balance_score :=
          match all_transactions with
          | [] => 0%Z
          | _ =>
              let avg_balance :=
                sum_balances all_transactions
                / inject_Z (Z.of_nat (List.length all_transactions)) in
              if Qlt_bool 0 avg_balance
              then Z.min 150 (py_int (avg_balance / 1000) * 10)
              else 0%Z
          end in
        let score := (score + balance_score)%Z in
        (* 3. Transaction frequency (up to 150 points) *)
        later <- utcnow ;;
        let month_ago := (later - 30 * day_us)%Z in
        let monthly_count :=
          Z.of_nat (count_documents
                      (fun t => Z.leb month_ago (t_timestamp t))
                      all_transactions) in
        let freq_score := Z.min 150 (monthly_count * 10) in
        let score := (score + freq_score)%Z in
        (* 4. No fraud flags (up to 200 points) *)
        let flagged_count :=
          Z.of_nat (count_documents t_is_flagged all_transactions) in
        let fraud_score := Z.max 0 (200 - flagged_count * 50) in
        let score := (score + fraud_score)%Z in
        let final_score := Z.min 900 score in
        let '(rating, color) :=
          if (750 <=? final_score)%Z then ("Excellent", "green")
          else if (650 <=? final_score)%Z then ("Good", "blue")
          else if (550 <=? final_score)%Z then ("Fair", "yellow")
          else ("Poor", "red") in
        ret {| cs_credit_score := final_score;
               cs_rating := rating;
               cs_color := color;
               cs_factors :=
                 [ {| f_factor := "Account Age"; f_points := age_score;
                      f_max := 100 |};
                   {| f_factor := "Average Balance";
                      f_points := balance_score; f_max := 150 |};
                   {| f_factor := "Transaction Activity";
                      f_points := freq_score; f_max := 150 |};
                   {| f_factor := "Clean Transaction History";
                      f_points := fraud_score; f_max := 200 |} ] |}
    end)%handler.

Record FraudCheck := {
  fc_amount : option Q;
  fc_is_fraud : bool;
  fc_fraud_score : Q;
  fc_risk_level : string;
  fc_model_used : string
}.

(** [t.replace(hour=0, minute=0, second=0, microsecond=0)] *)
Definition replace_hmsu0 (t : datetime) : datetime := (t - t mod day_us)%Z.

Definition fraud_check (rq : Request) : Handler FraudCheck :=
  login_only rq (fun identity =>
    let data := json rq in
    (* Get today's transaction count for this user *)
    now <- utcnow ;;
    let today_start := replace_hmsu0 now in
    txn_count_today <- gets (fun w =>
      count_documents
        (fun t => Nat.eqb (t_user_id t) (i_user_id identity)
                  && Z.leb today_start (t_timestamp t))
        (transactions w)) ;;
    user <- find_user (fun u => Nat.eqb (u_id u) (i_user_id identity)) ;;
    later <- utcnow ;;
    let transaction_data :=
      {| Fraud.d_amount := Some (PNum (or_default (j_amount data) 0));
         Fraud.d_hour := Some (PNum (inject_Z (hour_of later)));
         Fraud.d_balance_before :=
           Some (PNum (match user with
                       | Some u => u_balance u
                       | None => 0
                       end));
         Fraud.d_transaction_count_today :=
           Some (PNum (inject_Z (Z.of_nat txn_count_today))) |} in
    file <- gets model_file ;;
    let result := Fraud.predict_fraud file transaction_data in
    ret {| fc_amount := j_amount data;
           fc_is_fraud := Fraud.is_fraud result;
           fc_fraud_score := Fraud.fraud_score result;
           fc_risk_level :=
             if Qle_bool (7 # 10) (Fraud.fraud_score result) then "HIGH"
             else if Qle_bool (4 # 10) (Fraud.fraud_score result)
                  then "MEDIUM" else "LOW";
           fc_model_used := Fraud.model result |})%handler.

(** ** More of the small bank *)

Module Desk.

(** The claims [grant_access] signs for request 100 in the sample world,
    and a stand-in for PyJWT that knows exactly that token. *)
Definition issued_100 : Claims :=
  issued_claims (Sample.world_with (Sample.request_100 pending))
    (Sample.request_100 pending) 100.

Definition desk_jwt : JwtLib :=
  {| jwt_encode := fun _ _ => "token-100";
     jwt_decode := fun token key now =>
       if String.eqb token "token-100" && String.eqb key "s3cret" then
         if Z.ltb (c_exp issued_100) now then ExpiredSignatureError
         else Decoded issued_100
       else InvalidTokenError |}.

Definition owner_click : Request :=
  Sample.request_from None Sample.no_json None.

Definition admin_view : Request :=
  Sample.request_from (Some (Sample.login Sample.mallory)) Sample.no_json
    (Some "token-100").

End Desk.

(** * Properties *)

(** ** Arithmetic helpers *)

Lemma Qlt_bool_iff x y : Qlt_bool x y = true <-> x < y.
Proof.
  unfold Qlt_bool. rewrite negb_true_iff. split; intro H.
  - apply Qnot_le_lt. intro Hle. apply Qle_bool_iff in Hle. congruence.
  - destruct (Qle_bool y x) eqn:E; [|reflexivity].
    apply Qle_bool_iff in E. exfalso. exact (Qle_not_lt _ _ E H).
Qed.

Lemma Qlt_bool_false_iff x y : Qlt_bool x y = false <-> y <= x.
Proof.
  unfold Qlt_bool. rewrite negb_false_iff. apply Qle_bool_iff.
Qed.

Lemma Qle_bool_false_iff x y : Qle_bool x y = false <-> y < x.
Proof.
  rewrite <- Qlt_bool_iff. unfold Qlt_bool.
  destruct (Qle_bool x y); simpl; split; congruence.
Qed.

(** ** Fraud scoring *)

Section FraudFacts.
Import Fraud.




End FraudFacts.

(** ** Documents found and updated by [_id] *)

Section Keyed.

Context {A : Type} (key : A -> nat) (set : A -> A).
Hypothesis set_key : forall x, key (set x) = key x.

Lemma find_update_one_same id l :
  find (fun x => Nat.eqb (key x) id)
    (update_one (fun x => Nat.eqb (key x) id) set l)
  = option_map set (find (fun x => Nat.eqb (key x) id) l).
Proof.
  induction l as [|d l IH]; simpl; [reflexivity|].
  destruct (Nat.eqb (key d) id) eqn:E; simpl.
  - rewrite set_key, E. reflexivity.
  - rewrite E. exact IH.
Qed.

Lemma find_update_one_other id id' l :
  id' <> id ->
  find (fun x => Nat.eqb (key x) id')
    (update_one (fun x => Nat.eqb (key x) id) set l)
  = find (fun x => Nat.eqb (key x) id') l.
Proof.
  intros Hne. induction l as [|d l IH]; simpl; [reflexivity|].
  destruct (Nat.eqb (key d) id) eqn:E; simpl.
  - rewrite set_key. apply Nat.eqb_eq in E.
    destruct (Nat.eqb (key d) id') eqn:E'; [|reflexivity].
    apply Nat.eqb_eq in E'. congruence.
  - destruct (Nat.eqb (key d) id'); [reflexivity | exact IH].
Qed.

End Keyed.

Lemma find_key_eq {A} (key : A -> nat) id l x :
  find (fun y => Nat.eqb (key y) id) l = Some x -> key x = id.
Proof.
  intros H. apply find_some in H. destruct H as [_ H].
  now apply Nat.eqb_eq in H.
Qed.

(** ** The ledger *)



(** C3.  A withdrawal of more than the balance of the caller's account
    fails and leaves the world, balances and transaction history included,
    exactly as it was; the error is the insufficient-funds one whenever
    the balance is not negative (the only other case, an amount that is
    not positive against a negative balance, is answered as an invalid
    amount). *)
Theorem withdraw_insufficient_funds rq w who user :
  identity rq = Some who ->
  account (i_user_id who) w = Some user ->
  u_balance user < or_default (j_amount (json rq)) 0 ->
  let out := run (withdraw rq) w in
  snd out = w
  /\ succeeded (fst out) = false
  /\ (0 <= u_balance user -> fst out = InsufficientFunds).
Proof.
  intros Hid Hacc Hlt out. subst out.
  unfold withdraw. step_handler. rewrite Hid; cbv beta iota zeta.
  destruct (Qle_bool (or_default (j_amount (json rq)) 0) 0) eqn:Ha.
  - repeat split. intros Hpos. exfalso.
    apply Qle_bool_iff in Ha.
    apply (Qlt_irrefl 0). eapply Qle_lt_trans; [exact Hpos|].
    eapply Qlt_le_trans; eassumption.
  - unfold account in Hacc. rewrite Hacc; cbv beta iota.
    apply Qlt_bool_iff in Hlt. rewrite Hlt. repeat split.
Qed.

Lemma withdraw_insufficient_funds_witness :
  run (withdraw (Sample.request_from (Some (Sample.login Sample.alice))
                   (Sample.amount_json 1800) None)) Sample.world
  = (InsufficientFunds, Sample.world).
Proof.
  destruct (withdraw_insufficient_funds
              (Sample.request_from (Some (Sample.login Sample.alice))
                 (Sample.amount_json 1800) None)
              Sample.world (Sample.login Sample.alice) Sample.alice)
    as (Hw & _ & Hr); [reflexivity | reflexivity | reflexivity |].
  rewrite (surjective_pairing (run _ _)), Hw, Hr;
    [reflexivity | discriminate].
Defined.

Lemma withdraw_success rq w who user :
  identity rq = Some who ->
  account (i_user_id who) w = Some user ->
  let amount := or_default (j_amount (json rq)) 0 in
  let out := run (withdraw rq) w in
  let verdict := withdraw_verdict w user amount in
  0 < amount ->
  amount <= u_balance user ->
  exists t,
    fst out
    = Json (WithdrawOk amount (u_balance user - amount)
              (if Fraud.is_fraud verdict
               then Some "This transaction has been flagged for review"
               else None)) 200
    /\ balance_of (i_user_id who) (snd out) = Some (u_balance user - amount)
    /\ transactions (snd out) = transactions w ++ [t]
    /\ t_user_id t = i_user_id who
    /\ t_type t = debit
    /\ t_amount t = amount
    /\ t_balance_after t = u_balance user - amount
    /\ t_is_flagged t = Fraud.is_fraud verdict
    /\ t_fraud_score t = Fraud.fraud_score verdict.
Proof.
  intros Hid Hacc amount out verdict Hpos Hle. subst out verdict.
  unfold withdraw, withdraw_verdict, same_day_count, Fraud.numeric_data.
  step_handler. rewrite Hid; cbv beta iota zeta. fold amount.
  apply Qle_bool_false_iff in Hpos. rewrite Hpos.
  unfold balance_of, account in *.
  destruct w as [us ts rs al nid clk tk mu ob mf]; world_simpl.
  cbv beta iota delta [users] in Hacc. rewrite Hacc; world_simpl.
  apply Qlt_bool_false_iff in Hle. rewrite Hle; world_simpl.
  pose proof (find_key_eq u_id _ _ _ Hacc) as Hk.
  destruct mu; world_simpl; eexists;
    (split; [reflexivity|]);
    rewrite Hk;
    rewrite (find_update_one_same u_id (set_balance (u_balance user - amount)))
      by reflexivity;
    rewrite Hacc; cbn; repeat split; try reflexivity; exact Hk.
Qed.

(** C8, as the code has it.  With balance 1500, no model file, the clock
    at hour 2 and a same-day count of 12, a withdrawal of 400 succeeds and
    leaves 1100; its debit transaction carries the score 0.45 (0.2 for the
    hour, 0.25 for the count), which is below the threshold 0.5, so the
    transaction is not flagged. *)
Theorem withdraw_400_at_2am rq w who user :
  identity rq = Some who ->
  account (i_user_id who) w = Some user ->
  u_balance user = 1500 ->
  j_amount (json rq) = Some 400 ->
  model_file w = Fraud.NoFile ->
  hour_of (clock w (ticks w)) = 2%Z ->
  same_day_count (u_id user) (clock w (S (ticks w))) w = 12%nat ->
  let out := run (withdraw rq) w in
  exists t b,
    fst out = Json (WithdrawOk 400 b None) 200
    /\ balance_of (i_user_id who) (snd out) = Some b
    /\ b == 1100
    /\ transactions (snd out) = transactions w ++ [t]
    /\ t_type t = debit
    /\ t_amount t = 400
    /\ t_is_flagged t = false
    /\ t_fraud_score t == 45 # 100.
Proof.
  intros Hid Hacc Hbal Hamt Hfile Hhour Hcount out. subst out.
  destruct (withdraw_success rq w who user Hid Hacc) as [t H].
  - rewrite Hamt. reflexivity.
  - rewrite Hamt, Hbal. discriminate.
  - assert (Hv : withdraw_verdict w user 400
                 = {| Fraud.is_fraud := false;
                      Fraud.fraud_score := 4500 # 10000;
                      Fraud.model := "rule_based" |}).
    { unfold withdraw_verdict. rewrite Hfile, Hhour, Hcount, Hbal.
      vm_compute. reflexivity. }
    rewrite Hamt in H. cbn [or_default] in H. rewrite Hv, Hbal in H.
    cbn [Fraud.is_fraud Fraud.fraud_score] in H.
    destruct H as (Hr & Hb & Ht & _ & Hty & Ha & _ & Hfl & Hsc).
    exists t, (1500 - 400). rewrite Hsc.
    repeat split; try assumption; reflexivity.
Qed.

Lemma withdraw_400_at_2am_witness :
  let rq := Sample.request_from (Some (Sample.login Sample.alice))
              (Sample.amount_json 400) None in
  exists t b,
    fst (run (withdraw rq) Sample.world) = Json (WithdrawOk 400 b None) 200
    /\ balance_of 1 (snd (run (withdraw rq) Sample.world)) = Some b
    /\ b == 1100
    /\ transactions (snd (run (withdraw rq) Sample.world))
       = transactions Sample.world ++ [t]
    /\ t_type t = debit
    /\ t_amount t = 400
    /\ t_is_flagged t = false
    /\ t_fraud_score t == 45 # 100.
Proof.
  intros rq.
  apply (withdraw_400_at_2am rq Sample.world (Sample.login Sample.alice)
           Sample.alice); reflexivity.
Defined.

(** C8, as the specification has it, fails: in the scenario (Alice's
    balance 1500, twelve movements since midnight, half past two, no model
    file) the appended transaction is not flagged. *)
Lemma flagged_at_2am_counterexample :
  let rq := Sample.request_from (Some (Sample.login Sample.alice))
              (Sample.amount_json 400) None in
  let out := run (withdraw rq) Sample.world in
  balance_of 1 Sample.world = Some 1500
  /\ model_file Sample.world = Fraud.NoFile
  /\ hour_of (clock Sample.world (ticks Sample.world)) = 2%Z
  /\ same_day_count 1 (clock Sample.world (S (ticks Sample.world)))
       Sample.world = 12%nat
  /\ succeeded (fst out) = true
  /\ ~ (exists t,
          transactions (snd out) = transactions Sample.world ++ [t]
          /\ t_is_flagged t = true).
Proof.
  intros rq out.
  repeat (split; [reflexivity|]).
  intros [t [Ht Hflag]].
  assert (Hlast : last (transactions (snd out)) (Sample.movement 0)
                  = t).
  { rewrite Ht. apply last_last. }
  rewrite <- Hlast in Hflag. vm_compute in Hflag. discriminate.
Qed.

(** ** Scoring faults *)



(** ** Transfers *)

Lemma find_unique_id {A} (key : A -> nat) l x :
  NoDup (List.map key l) -> In x l ->
  find (fun y => Nat.eqb (key y) (key x)) l = Some x.
Proof.
  induction l as [|d l IH]; simpl; intros Hnd Hin; [contradiction|].
  inversion Hnd as [|k ks Hnotin Hnd']; subst.
  destruct Hin as [->|Hin].
  - now rewrite Nat.eqb_refl.
  - destruct (Nat.eqb (key d) (key x)) eqn:E.
    + apply Nat.eqb_eq in E. exfalso. apply Hnotin. rewrite E.
      now apply in_map.
    + now apply IH.
Qed.





(** ** What handlers do to the access requests *)

Section Keeps.

Variable P : list AccessRequest -> Prop.

Lemma keeps_ret {A} (a : A) : keeps P (ret a).
Proof. intros w H. exact H. Qed.

Lemma keeps_reply {A} body status : keeps P (@reply A body status).
Proof. intros w H. exact H. Qed.

Lemma keeps_raise {A} e : keeps P (@raise A e).
Proof. intros w H. exact H. Qed.

Lemma keeps_gets {A} (f : World -> A) : keeps P (gets f).
Proof. intros w H. exact H. Qed.

Lemma keeps_bind {A B} (c : Handler A) (k : A -> Handler B) :
  keeps P c -> (forall a, keeps P (k a)) -> keeps P (bind c k).
Proof.
  intros Hc Hk w H. unfold bind. specialize (Hc w H).
  destruct (c w) as [[a|r] w']; simpl in *; [apply Hk|]; exact Hc.
Qed.

Lemma keeps_modify f :
  (forall w, access_requests (f w) = access_requests w) ->
  keeps P (modify f).
Proof. intros Hf w H. simpl. rewrite Hf. exact H. Qed.

Lemma keeps_utcnow : keeps P utcnow.
Proof. intros w H. exact H. Qed.

Lemma keeps_fresh_id : keeps P fresh_id.
Proof. intros w H. exact H. Qed.

Lemma keeps_update_access_request id set :
  (forall l, P l -> P (update_one (fun r => Nat.eqb (r_id r) id) set l)) ->
  keeps P (update_access_request id set).
Proof. intros Hs w H. simpl. apply Hs. exact H. Qed.

Lemma keeps_run (h : Handler Response) w :
  keeps P h -> P (access_requests w) -> P (access_requests (snd (run h w))).
Proof.
  intros Hh H. specialize (Hh w H). unfold run.
  destruct (h w) as [[a|r] w']; exact Hh.
Qed.

End Keeps.

Ltac keeps_step :=
  first
    [ apply keeps_ret | apply keeps_reply | apply keeps_raise
    | apply keeps_gets | apply keeps_utcnow | apply keeps_fresh_id
    | apply keeps_modify; intros; reflexivity
    | apply keeps_bind; [|intros ?]
    | match goal with
      | |- keeps _ (if ?c then _ else _) => destruct c
      | |- keeps _ (match ?x with _ => _ end) => destruct x
      end
    | (intros ? ?; assumption) ].

Ltac keeps_auto :=
  cbv beta zeta delta
    [jwt_required admin_required subscript find_user find_access_request
     update_balance insert_transaction send_transaction_alert_email
     send_access_decision_email send_access_request_email mail_send
     log_action generate_permission_token verify_permission_token];
  repeat keeps_step.

Lemma keeps_deposit P rq : keeps P (deposit rq).
Proof. unfold deposit. keeps_auto. Qed.

Lemma keeps_withdraw P rq : keeps P (withdraw rq).
Proof. unfold withdraw. keeps_auto. Qed.

Lemma keeps_transfer P rq : keeps P (transfer rq).
Proof. unfold transfer. keeps_auto. Qed.

Lemma keeps_view_user_account P jwt secret rq user_id :
  keeps P (view_user_account jwt secret rq user_id).
Proof. unfold view_user_account. keeps_auto. Qed.

(** ** Pending requests *)










Lemma request_access_effect rq user_id w :
  let out := run (request_access rq user_id) w in
  (succeeded (fst out) = false /\ access_requests (snd out) = access_requests w)
  \/ (exists who new,
        identity rq = Some who
        /\ find (pending_for (i_user_id who) user_id) (access_requests w) = None
        /\ access_requests (snd out) = access_requests w ++ [new]
        /\ r_admin_id new = i_user_id who
        /\ r_user_id new = user_id
        /\ r_status new = pending).
Proof.
  intros out. subst out. unfold request_access. step_handler.
  destruct (identity rq) as [who|]; [|left; split; reflexivity].
  destruct (negb (String.eqb (i_role who) "admin"));
    [left; split; reflexivity|].
  match goal with |- context [if ?c then _ else _] => destruct c end;
    [left; split; reflexivity|].
  destruct w as [us ts rs al nid clk tk mu ob mf]; world_simpl.
  destruct (find _ us) as [user|]; [|left; split; reflexivity].
  match goal with |- context [find ?q rs] =>
    change q with (pending_for (i_user_id who) user_id);
    destruct (find (pending_for (i_user_id who) user_id) rs) eqn:Hex
  end; [left; split; reflexivity|].
  right. destruct mu; world_simpl; eexists; eexists;
    (split; [reflexivity|]); (split; [exact Hex|]);
    (split; [reflexivity|]); repeat split.
Qed.





Lemma status_eqb_eq a b : status_eqb a b = true <-> a = b.
Proof. destruct a, b; simpl; split; congruence. Qed.

(** ** The owner's decision *)




Lemma keeps_grant_access_other jwt secret rq id id' v :
  id' <> id ->
  keeps (fun l => find (fun r => Nat.eqb (r_id r) id') l = v)
    (grant_access jwt secret rq id).
Proof.
  intros Hne. unfold grant_access. keeps_auto;
    apply keeps_update_access_request; intros l Hl;
    rewrite (find_update_one_other r_id) by (reflexivity || assumption);
    exact Hl.
Qed.

Lemma keeps_deny_access_other rq id id' v :
  id' <> id ->
  keeps (fun l => find (fun r => Nat.eqb (r_id r) id') l = v)
    (deny_access rq id).
Proof.
  intros Hne. unfold deny_access. keeps_auto;
    apply keeps_update_access_request; intros l Hl;
    rewrite (find_update_one_other r_id) by (reflexivity || assumption);
    exact Hl.
Qed.

Lemma find_app_some {A} (q : A -> bool) l1 l2 x :
  find q l1 = Some x -> find q (l1 ++ l2) = Some x.
Proof.
  induction l1 as [|d l1 IH]; simpl; [discriminate|].
  destruct (q d); [trivial | exact IH].
Qed.

Lemma other_calls_keep_requests jwt secret c id w req :
  is_decision c = false ->
  request_of id w = Some req ->
  request_of id (snd (run (serve jwt secret c) w)) = Some req.
Proof.
  unfold request_of. intros Hc Hreq.
  destruct c as [rq|rq|rq|rq uid|rq uid|rq rid|rq rid]; simpl;
    try discriminate.
  - apply (keeps_run (fun l => find _ l = Some req));
      [apply keeps_deposit | exact Hreq].
  - apply (keeps_run (fun l => find _ l = Some req));
      [apply keeps_withdraw | exact Hreq].
  - apply (keeps_run (fun l => find _ l = Some req));
      [apply keeps_transfer | exact Hreq].
  - destruct (request_access_effect rq uid w) as [[_ H]|H].
    + rewrite H. exact Hreq.
    + destruct H as (who & new & _ & _ & Hl & _).
      rewrite Hl. apply find_app_some. exact Hreq.
  - apply (keeps_run (fun l => find _ l = Some req));
      [apply keeps_view_user_account | exact Hreq].
Qed.



(** C5 on the code.  Request 100 is pending and a day past its expiry.
    The grant route answers with the expired error and marks the request
    expired; the deny route makes no expiry check, answers 200 and marks
    the request denied. *)
Lemma deny_access_after_expiry :
  let rq := Sample.request_from (Some (Sample.login Sample.alice))
              Sample.no_json None in
  let w := Sample.world_with Sample.stale_request_100 in
  status_of 100 w = Some pending
  /\ (r_expires_at Sample.stale_request_100 < clock w (ticks w))%Z
  /\ fst (run (deny_access rq 100) w) = Json DenyOk 200
  /\ status_of 100 (snd (run (deny_access rq 100) w)) = Some denied
  /\ fst (run (grant_access Sample.toy_jwt "s3cret" rq 100) w)
     = RequestExpired
  /\ status_of 100
       (snd (run (grant_access Sample.toy_jwt "s3cret" rq 100) w))
     = Some expired.
Proof.
  intros rq w. repeat split; reflexivity.
Qed.

(** ** Viewing an account under a permission token *)

Lemma find_granted_none id l :
  (forall req, In req l -> r_id req = id -> r_status req <> granted) ->
  find (fun r => Nat.eqb (r_id r) id && status_eqb (r_status r) granted) l
  = None.
Proof.
  intros H.
  destruct (find _ l) as [r|] eqn:E; [|reflexivity].
  apply find_some in E. destruct E as [Hin Hq].
  apply andb_true_iff in Hq. destruct Hq as [Hid Hst].
  apply Nat.eqb_eq in Hid. apply status_eqb_eq in Hst.
  exfalso. exact (H r Hin Hid Hst).
Qed.

(** C1.  An admin's [view_user_account] succeeds only with a token that
    decodes, whose admin and account ids are the caller's and the
    route's, and whose request is in the collection with status granted.
    A token that decodes but names another admin or account is answered
    with the mismatch error; one that decodes while no request with its
    id is granted never succeeds, and is answered with the revoked error
    once its ids match; one that does not decode is answered with the
    invalid-token error.  With all checks met and the account present,
    the view succeeds. *)
Theorem view_requires_token_and_live_grant jwt secret rq user_id w who :
  identity rq = Some who ->
  i_role who = "admin" ->
  let out := run (view_user_account jwt secret rq user_id) w in
  let now := clock w (ticks w) in
  (succeeded (fst out) = true ->
     exists token payload req,
       x_permission_token rq = Some token
       /\ jwt_decode jwt token secret now = Decoded payload
       /\ c_admin_id payload = i_user_id who
       /\ c_user_id payload = user_id
       /\ In req (access_requests w)
       /\ r_id req = c_request_id payload
       /\ r_status req = granted)
  /\ (forall token payload,
        x_permission_token rq = Some token ->
        token <> "" ->
        jwt_decode jwt token secret now = Decoded payload ->
        (c_admin_id payload <> i_user_id who \/ c_user_id payload <> user_id ->
         fst out = TokenMismatch)
        /\ ((forall req, In req (access_requests w) ->
               r_id req = c_request_id payload -> r_status req <> granted) ->
            succeeded (fst out) = false
            /\ (c_admin_id payload = i_user_id who ->
                c_user_id payload = user_id ->
                fst out = AccessRevoked))
        /\ (forall req user,
              c_admin_id payload = i_user_id who ->
              c_user_id payload = user_id ->
              In req (access_requests w) ->
              r_id req = c_request_id payload ->
              r_status req = granted ->
              account user_id w = Some user ->
              succeeded (fst out) = true))
  /\ (forall token,
        x_permission_token rq = Some token ->
        token <> "" ->
        (jwt_decode jwt token secret now = ExpiredSignatureError
         \/ jwt_decode jwt token secret now = InvalidTokenError) ->
        fst out = TokenInvalid).
Proof.
  intros Hid Hrole out now. subst out now.
  unfold view_user_account, verify_permission_token, account. step_handler.
  rewrite Hid; cbv beta iota. rewrite Hrole.
  change (negb (String.eqb "admin" "admin")) with false. cbv iota.
  destruct w as [us ts rs al nid clk tk mu ob mf]; world_simpl.
  destruct (x_permission_token rq) as [token|] eqn:Htok; cbn [falsy_string].
  2:{ repeat split; intros; discriminate. }
  destruct (String.eqb token "") eqn:Hempty.
  { apply String.eqb_eq in Hempty. split; [discriminate|].
    split; intros t; intros; exfalso; congruence. }
  cbn [or_default].
  destruct (jwt_decode jwt token secret (clk tk)) as [payload| |] eqn:Hdec;
    world_simpl.
  2,3: split; [discriminate|];
       split; [intros t p Ht _ Hd; injection Ht as <-; congruence
              | intros; reflexivity].
  destruct (Nat.eqb_spec (c_admin_id payload) (i_user_id who)) as [Hadm|Hadm];
    destruct (Nat.eqb_spec (c_user_id payload) user_id) as [Husr|Husr];
    cbn [negb orb].
  2,3,4: split; [discriminate|];
         split; [| intros t Ht _ [Hd|Hd]; injection Ht as <-; congruence];
         intros t p Ht _ Hd; injection Ht as <-;
         assert (p = payload) by congruence; subst p;
         split; [reflexivity|];
         split; [intros _; split; [reflexivity | intros; congruence]
                | intros; congruence].
  destruct (find _ rs) as [req|] eqn:Hreq; world_simpl.
  - apply find_some in Hreq. destruct Hreq as [Hin Hq].
    apply andb_true_iff in Hq. destruct Hq as [Hrid Hst].
    apply Nat.eqb_eq in Hrid. apply status_eqb_eq in Hst.
    destruct (find _ us) as [user|] eqn:Hu; world_simpl.
    + split.
      { intros _. exists token, payload, req. repeat split; assumption. }
      split; [| intros t Ht _ [Hd|Hd]; injection Ht as <-; congruence].
      intros t p Ht _ Hd. injection Ht as <-.
      assert (p = payload) by congruence; subst p.
      split; [intros [H|H]; congruence|].
      split; [intros Hno; exfalso; exact (Hno req Hin Hrid Hst)|].
      intros; reflexivity.
    + split; [discriminate|].
      split; [| intros t Ht _ [Hd|Hd]; injection Ht as <-; congruence].
      intros t p Ht _ Hd. injection Ht as <-.
      assert (p = payload) by congruence; subst p.
      split; [intros [H|H]; congruence|].
      split; [intros Hno; exfalso; exact (Hno req Hin Hrid Hst)|].
      intros; congruence.
  - split; [discriminate|].
    split; [| intros t Ht _ [Hd|Hd]; injection Ht as <-; congruence].
    intros t p Ht _ Hd. injection Ht as <-.
    assert (p = payload) by congruence; subst p.
    split; [intros [H|H]; congruence|].
    split; [intros _; split; [reflexivity | intros; reflexivity]|].
    intros r u _ _ Hin Hrid Hst _. exfalso.
    apply (find_none _ _ Hreq) in Hin.
    rewrite Hrid, Nat.eqb_refl, Hst in Hin. discriminate.
Qed.


Lemma view_requires_token_and_live_grant_witness :
  let rq := Sample.request_from (Some (Sample.login Sample.mallory))
              Sample.no_json (Some "token-100") in
  fst (run (view_user_account Sample.toy_jwt "s3cret" rq 1)
         (Sample.world_with (Sample.request_100 denied)))
  = AccessRevoked
  /\ fst (run (view_user_account Sample.toy_jwt "s3cret" rq 2)
            (Sample.world_with (Sample.request_100 granted)))
     = TokenMismatch
  /\ succeeded
       (fst (run (view_user_account Sample.toy_jwt "s3cret" rq 1)
               (Sample.world_with (Sample.request_100 granted))))
     = true.
Proof.
  intros rq. split; [| split].
  - destruct (view_requires_token_and_live_grant Sample.toy_jwt "s3cret" rq
                1%nat (Sample.world_with (Sample.request_100 denied))
                (Sample.login Sample.mallory) eq_refl eq_refl)
      as (_ & H & _).
    destruct (H "token-100" Sample.claims_100 eq_refl) as (_ & Hrev & _);
      [discriminate | reflexivity |].
    apply Hrev; [|reflexivity | reflexivity].
    intros req [<-|[]] _. discriminate.
  - destruct (view_requires_token_and_live_grant Sample.toy_jwt "s3cret" rq
                2%nat (Sample.world_with (Sample.request_100 granted))
                (Sample.login Sample.mallory) eq_refl eq_refl)
      as (_ & H & _).
    destruct (H "token-100" Sample.claims_100 eq_refl) as (Hmis & _);
      [discriminate | reflexivity |].
    apply Hmis. right. discriminate.
  - destruct (view_requires_token_and_live_grant Sample.toy_jwt "s3cret" rq
                1%nat (Sample.world_with (Sample.request_100 granted))
                (Sample.login Sample.mallory) eq_refl eq_refl)
      as (_ & H & _).
    destruct (H "token-100" Sample.claims_100 eq_refl) as (_ & _ & Hok);
      [discriminate | reflexivity |].
    apply (Hok (Sample.request_100 granted) Sample.alice);
      try reflexivity. left; reflexivity.
Defined.

(** * Properties beyond the claims *)

(** ** Fraud scoring *)

Lemma py_clamp_unit a : 0 <= py_max 0 (py_min 1 a) <= 1.
Proof.
  unfold py_max, py_min.
  destruct (Qlt_bool a 1) eqn:E1.
  - apply Qlt_bool_iff in E1.
    destruct (Qlt_bool 0 a) eqn:E0.
    + apply Qlt_bool_iff in E0. split; lra.
    + split; lra.
  - destruct (Qlt_bool 0 1); split; lra.
Qed.

Lemma round_half_even_bounds (a b : Z) x :
  inject_Z a <= x -> x <= inject_Z b ->
  (a <= round_half_even x <= b)%Z.
Proof.
  intros Ha Hb. unfold round_half_even.
  pose proof (Qfloor_le x) as Hfl.
  pose proof (Qlt_floor x) as Hfu.
  assert (Hlo : (a <= Qfloor x)%Z).
  { apply Z.lt_succ_r. rewrite inject_Z_plus in Hfu.
    rewrite Zlt_Qlt. rewrite <- Z.add_1_r, inject_Z_plus. lra. }
  assert (Hhi : (Qfloor x <= b)%Z).
  { rewrite Zle_Qle. lra. }
  assert (Hup : x - inject_Z (Qfloor x) < 1 # 2 \/ (Qfloor x + 1 <= b)%Z).
  { destruct (Z.eq_dec (Qfloor x) b) as [E|E]; [|right; lia].
    left. rewrite E in *. lra. }
  destruct (Qlt_bool (x - inject_Z (Qfloor x)) (1 # 2)) eqn:E1; [lia|].
  apply Qlt_bool_false_iff in E1.
  assert ((Qfloor x + 1 <= b)%Z) by (destruct Hup; [lra | assumption]).
  destruct (Qlt_bool (1 # 2) (x - inject_Z (Qfloor x))); [lia|].
  destruct (Z.even (Qfloor x)); lia.
Qed.

Lemma py_round4_unit x : 0 <= x <= 1 -> 0 <= py_round4 x <= 1.
Proof.
  intros [H0 H1]. unfold py_round4.
  destruct (round_half_even_bounds 0 10000 (x * 10000)) as [Hl Hu].
  - change (inject_Z 0) with 0. lra.
  - change (inject_Z 10000) with 10000. lra.
  - unfold Qle. simpl. lia.
Qed.

Lemma rule_score_unit data score :
  Fraud._rule_based_fraud_score data = inr score -> 0 <= score <= 1.
Proof.
  unfold Fraud._rule_based_fraud_score.
  generalize (Fraud.get (Fraud.d_amount data) (PNum 0)) as amount.
  generalize (Fraud.get (Fraud.d_hour data) (PNum 12)) as hour.
  generalize (Fraud.get (Fraud.d_balance_before data) (PNum 0)) as bal.
  generalize (Fraud.get (Fraud.d_transaction_count_today data) (PNum 0))
    as cnt.
  intros cnt bal hour amount.
  unfold py_gt, py_le, py_div, ebind, eret, eraise.
  destruct (as_num bal) as [b|]; simpl; [|discriminate].
  destruct (as_num amount) as [a|]; simpl.
  2:{ destruct (Qlt_bool 0 b); simpl; [discriminate|].
      destruct (as_num hour) as [h|]; simpl; [|discriminate].
      destruct (Qle_bool 0 h); [destruct (Qle_bool h 5)|];
        destruct (as_num cnt); simpl; discriminate. }
  destruct (as_num hour) as [h|]; simpl.
  2:{ destruct (Qlt_bool 0 b); simpl; [|discriminate].
      destruct (Qlt_bool (8 # 10) (a / b)); discriminate. }
  destruct (as_num cnt) as [c|]; simpl.
  2:{ destruct (Qlt_bool 0 b); simpl;
        [destruct (Qlt_bool (8 # 10) (a / b))|];
        (destruct (Qle_bool 0 h); [destruct (Qle_bool h 5)|]); discriminate. }
  destruct (Qlt_bool 0 b); simpl;
    [destruct (Qlt_bool (8 # 10) (a / b))|];
    (destruct (Qle_bool 0 h); [destruct (Qle_bool h 5)|]);
    destruct (Qlt_bool 10 c); destruct (Qlt_bool 100000 a);
    intros H; injection H as <-; vm_compute; split; discriminate.
Qed.

(** X1.  Whatever lies at the model path and whatever the context holds,
    the score of the verdict lies between 0 and 1. *)
Theorem fraud_score_in_unit_interval file data :
  0 <= Fraud.fraud_score (Fraud.predict_fraud file data) <= 1.
Proof.
  unfold Fraud.predict_fraud, Fraud.predict_fraud_try.
  destruct file as [|e|m]; simpl.
  - unfold ebind at 1.
    destruct (Fraud._rule_based_fraud_score data) as [e|score] eqn:Hs; simpl.
    + split; discriminate.
    + apply py_round4_unit. exact (rule_score_unit data score Hs).
  - split; discriminate.
  - unfold ebind, eret.
    destruct (Fraud.predict m _) as [e|p]; simpl; [split; discriminate|].
    destruct (Fraud.decision_function m _) as [e|s]; simpl;
      [split; discriminate|].
    apply py_round4_unit. apply py_clamp_unit.
Qed.


(** ** What a ledger call does to the whole world *)

Lemma deposit_outcome rq w :
  let amount := or_default (j_amount (json rq)) 0 in
  let out := run (deposit rq) w in
  (succeeded (fst out) = false /\ snd out = w)
  \/ (exists who user t entry,
        identity rq = Some who
        /\ account (i_user_id who) w = Some user
        /\ 0 < amount
        /\ fst out = Json (DepositOk amount (u_balance user + amount)) 200
        /\ users (snd out)
           = update_one (fun u => Nat.eqb (u_id u) (u_id user))
               (set_balance (u_balance user + amount)) (users w)
        /\ transactions (snd out) = transactions w ++ [t]
        /\ t_id t = next_id w
        /\ next_id (snd out) = S (next_id w)
        /\ access_requests (snd out) = access_requests w
        /\ audit_logs (snd out) = audit_logs w ++ [entry]
        /\ a_actor_id entry = i_user_id who
        /\ a_actor_role entry = "user"
        /\ a_action entry = "deposit"
        /\ outbox (snd out)
           = if mail_up w
             then outbox w ++ [TransactionAlertMail (u_email user)
                                 (u_name user) credit amount
                                 (u_balance user + amount)]
             else outbox w).
Proof.
  intros amount out. subst out. unfold deposit. step_handler.
  destruct (identity rq) as [who|] eqn:Hid; [|left; split; reflexivity].
  cbv beta iota. fold amount.
  destruct (Qle_bool amount 0) eqn:E0; [left; split; reflexivity|].
  destruct (Qlt_bool 1000000 amount) eqn:E1; [left; split; reflexivity|].
  unfold account.
  destruct w as [us ts rs al nid clk tk mu ob mf]; world_simpl.
  destruct (find _ us) as [user|] eqn:Hf; world_simpl;
    [|left; split; reflexivity].
  right. apply Qle_bool_false_iff in E0.
  pose proof (find_key_eq u_id _ _ _ Hf) as Hk.
  destruct mu; world_simpl; exists who, user; eexists; eexists;
    repeat (split; [first [reflexivity | assumption]|]);
    first [reflexivity | assumption].
Qed.

Lemma withdraw_outcome rq w :
  let amount := or_default (j_amount (json rq)) 0 in
  let out := run (withdraw rq) w in
  (succeeded (fst out) = false /\ snd out = w)
  \/ (exists who user t entry,
        identity rq = Some who
        /\ account (i_user_id who) w = Some user
        /\ 0 < amount
        /\ amount <= u_balance user
        /\ succeeded (fst out) = true
        /\ users (snd out)
           = update_one (fun u => Nat.eqb (u_id u) (u_id user))
               (set_balance (u_balance user - amount)) (users w)
        /\ transactions (snd out) = transactions w ++ [t]
        /\ t_id t = next_id w
        /\ next_id (snd out) = S (next_id w)
        /\ access_requests (snd out) = access_requests w
        /\ audit_logs (snd out) = audit_logs w ++ [entry]
        /\ a_actor_id entry = i_user_id who
        /\ a_actor_role entry = "user"
        /\ a_action entry = "withdrawal"
        /\ outbox (snd out)
           = if mail_up w
             then outbox w ++ [TransactionAlertMail (u_email user)
                                 (u_name user) debit amount
                                 (u_balance user - amount)]
             else outbox w).
Proof.
  intros amount out. subst out. unfold withdraw. step_handler.
  destruct (identity rq) as [who|] eqn:Hid; [|left; split; reflexivity].
  cbv beta iota zeta. fold amount.
  destruct (Qle_bool amount 0) eqn:E0; [left; split; reflexivity|].
  unfold account.
  destruct w as [us ts rs al nid clk tk mu ob mf]; world_simpl.
  destruct (find _ us) as [user|] eqn:Hf; world_simpl;
    [|left; split; reflexivity].
  destruct (Qlt_bool (u_balance user) amount) eqn:E1;
    [left; split; reflexivity|].
  right. apply Qle_bool_false_iff in E0. apply Qlt_bool_false_iff in E1.
  pose proof (find_key_eq u_id _ _ _ Hf) as Hk.
  destruct mu; world_simpl; exists who, user; eexists; eexists;
    repeat (split; [first [reflexivity | assumption]|]);
    first [reflexivity | assumption].
Qed.

Lemma transfer_outcome rq w :
  let amount := or_default (j_amount (json rq)) 0 in
  let out := run (transfer rq) w in
  (succeeded (fst out) = false /\ snd out = w)
  \/ (exists who sender recipient d c entry,
        identity rq = Some who
        /\ account (i_user_id who) w = Some sender
        /\ In recipient (users w)
        /\ u_id sender <> u_id recipient
        /\ 0 < amount
        /\ amount <= u_balance sender
        /\ succeeded (fst out) = true
        /\ users (snd out)
           = update_one (fun u => Nat.eqb (u_id u) (u_id recipient))
               (set_balance (u_balance recipient + amount))
               (update_one (fun u => Nat.eqb (u_id u) (u_id sender))
                  (set_balance (u_balance sender - amount)) (users w))
        /\ transactions (snd out) = transactions w ++ [d; c]
        /\ t_id d = next_id w
        /\ t_id c = S (next_id w)
        /\ next_id (snd out) = S (S (next_id w))
        /\ access_requests (snd out) = access_requests w
        /\ audit_logs (snd out) = audit_logs w ++ [entry]
        /\ a_actor_id entry = i_user_id who
        /\ a_actor_role entry = "user"
        /\ a_action entry = "transfer"
        /\ outbox (snd out)
           = if mail_up w
             then outbox w
                  ++ [TransactionAlertMail (u_email sender) (u_name sender)
                        debit amount (u_balance sender - amount);
                      TransactionAlertMail (u_email recipient)
                        (u_name recipient) credit amount
                        (u_balance recipient + amount)]
             else outbox w).
Proof.
  intros amount out. subst out. unfold transfer. step_handler.
  destruct (identity rq) as [who|] eqn:Hid; [|left; split; reflexivity].
  cbv beta iota zeta. fold amount.
  destruct (j_to_account_number (json rq)) as [to_account|] eqn:Hto;
    cbn [falsy_string or_default]; [|left; split; reflexivity].
  destruct (String.eqb to_account "") eqn:Hempty;
    [left; split; reflexivity|].
  destruct (Qle_bool amount 0) eqn:E0; [left; split; reflexivity|].
  unfold account.
  destruct w as [us ts rs al nid clk tk mu ob mf]; world_simpl.
  destruct (find (fun u => String.eqb (u_account_number u) to_account) us)
    as [recipient|] eqn:Hrcp; world_simpl.
  2:{ destruct (find _ us); left; split; reflexivity. }
  destruct (find (fun u => Nat.eqb (u_id u) (i_user_id who)) us)
    as [sender|] eqn:Hf; world_simpl; [|left; split; reflexivity].
  destruct (Nat.eqb (u_id sender) (u_id recipient)) eqn:Hself;
    [left; split; reflexivity|].
  destruct (Qlt_bool (u_balance sender) amount) eqn:E1;
    [left; split; reflexivity|].
  right. apply Qle_bool_false_iff in E0. apply Qlt_bool_false_iff in E1.
  apply Nat.eqb_neq in Hself.
  pose proof (find_key_eq u_id _ _ _ Hf) as Hk.
  pose proof (find_some _ _ Hrcp) as [Hin _].
  destruct mu; world_simpl; exists who, sender, recipient;
    eexists; eexists; eexists;
    repeat (split; [first [reflexivity | assumption
                          | rewrite <- app_assoc; reflexivity]|]);
    first [reflexivity | assumption | rewrite <- app_assoc; reflexivity].
Qed.

(** ** Observations a handler leaves alone *)

Section Leaves.

Context {X : Type} (obs : World -> X).

Lemma leaves_ret {A} (a : A) : leaves obs (ret a).
Proof. intros w. reflexivity. Qed.

Lemma leaves_reply {A} body status : leaves obs (@reply A body status).
Proof. intros w. reflexivity. Qed.

Lemma leaves_raise {A} e : leaves obs (@raise A e).
Proof. intros w. reflexivity. Qed.

Lemma leaves_gets {A} (f : World -> A) : leaves obs (gets f).
Proof. intros w. reflexivity. Qed.

Lemma leaves_bind {A B} (c : Handler A) (k : A -> Handler B) :
  leaves obs c -> (forall a, leaves obs (k a)) -> leaves obs (bind c k).
Proof.
  intros Hc Hk w. unfold bind. specialize (Hc w).
  destruct (c w) as [[a|r] w']; simpl in *; [rewrite Hk|]; exact Hc.
Qed.

Lemma leaves_modify f :
  (forall w, obs (f w) = obs w) -> leaves obs (modify f).
Proof. intros Hf w. simpl. apply Hf. Qed.

Lemma leaves_utcnow :
  (forall n w, obs (set_ticks n w) = obs w) -> leaves obs utcnow.
Proof. intros Hf w. simpl. apply Hf. Qed.

Lemma leaves_fresh_id :
  (forall n w, obs (set_next_id n w) = obs w) -> leaves obs fresh_id.
Proof. intros Hf w. simpl. apply Hf. Qed.

Lemma leaves_run (h : Handler Response) w :
  leaves obs h -> obs (snd (run h w)) = obs w.
Proof.
  intros Hh. specialize (Hh w). unfold run.
  destruct (h w) as [[a|r] w']; exact Hh.
Qed.

End Leaves.

Ltac leaves_step :=
  first
    [ apply leaves_ret | apply leaves_reply | apply leaves_raise
    | apply leaves_gets
    | apply leaves_utcnow; intros; reflexivity
    | apply leaves_fresh_id; intros; reflexivity
    | apply leaves_modify; intros; reflexivity
    | apply leaves_bind; [|intros ?]
    | match goal with
      | |- leaves _ (if ?c then _ else _) => destruct c
      | |- leaves _ (match ?x with _ => _ end) => destruct x
      end
    | (intros ?; reflexivity) ].

Ltac leaves_auto :=
  cbv beta zeta delta
    [jwt_required admin_required subscript find_user find_access_request
     update_balance update_access_request insert_transaction
     insert_access_request send_transaction_alert_email
     send_access_decision_email send_access_request_email mail_send
     log_action generate_permission_token verify_permission_token];
  repeat leaves_step.


Lemma view_leaves_users jwt secret rq uid :
  leaves users (view_user_account jwt secret rq uid).
Proof. unfold view_user_account. leaves_auto. Qed.



Lemma request_access_leaves_transactions rq uid :
  leaves transactions (request_access rq uid).
Proof. unfold request_access. leaves_auto. Qed.

Lemma view_leaves_transactions jwt secret rq uid :
  leaves transactions (view_user_account jwt secret rq uid).
Proof. unfold view_user_account. leaves_auto. Qed.

Lemma grant_leaves_transactions jwt secret rq id :
  leaves transactions (grant_access jwt secret rq id).
Proof. unfold grant_access. leaves_auto. Qed.

Lemma deny_leaves_transactions rq id :
  leaves transactions (deny_access rq id).
Proof. unfold deny_access. leaves_auto. Qed.

Lemma view_leaves_access_requests jwt secret rq uid :
  leaves access_requests (view_user_account jwt secret rq uid).
Proof. unfold view_user_account. leaves_auto. Qed.

(** ** Balances never go negative *)








(** ** Money is conserved *)



(** ** Rejected transfers *)

(** X5.  A logged-in transfer is refused, with the world untouched, in
    this order: no recipient number (400), an amount that is not positive
    (400), no account with that number (404, even when the sender's own
    document is missing), a missing sender document (an unhandled
    [TypeError]), sender and recipient the same document (400), and an
    amount above the sender's balance (400). *)
Theorem transfer_rejections rq w who :
  identity rq = Some who ->
  let amount := or_default (j_amount (json rq)) 0 in
  let to_account := or_default (j_to_account_number (json rq)) "" in
  let recipient :=
    find (fun u => String.eqb (u_account_number u) to_account) (users w) in
  let out := run (transfer rq) w in
  (to_account = "" ->
   out = (Json (Error "Recipient account number required") 400, w))
  /\ (to_account <> "" -> amount <= 0 ->
      out = (Json (Error "Amount must be greater than 0") 400, w))
  /\ (to_account <> "" -> 0 < amount -> recipient = None ->
      out = (Json (Error "Recipient account not found") 404, w))
  /\ (forall r, to_account <> "" -> 0 < amount -> recipient = Some r ->
      account (i_user_id who) w = None ->
      out = (Unhandled TypeError, w))
  /\ (forall r s, to_account <> "" -> 0 < amount -> recipient = Some r ->
      account (i_user_id who) w = Some s ->
      (u_id s = u_id r ->
       out = (Json (Error "Cannot transfer to own account") 400, w))
      /\ (u_id s <> u_id r -> u_balance s < amount ->
          out = (InsufficientFunds, w))).
Proof.
  intros Hid amount to_account recipient out.
  subst out recipient. unfold transfer, account. step_handler.
  rewrite Hid; cbv beta iota zeta. fold amount.
  assert (Hfalsy : falsy_string (j_to_account_number (json rq))
                   = String.eqb to_account "").
  { subst to_account. destruct (j_to_account_number (json rq)); reflexivity. }
  rewrite Hfalsy. fold to_account.
  destruct (String.eqb_spec to_account "") as [He|He].
  { repeat split; intros; try reflexivity; contradiction. }
  destruct (Qle_bool amount 0) eqn:E0.
  { apply Qle_bool_iff in E0.
    repeat split; intros; try reflexivity; try contradiction;
      exfalso; lra. }
  apply Qle_bool_false_iff in E0.
  split; [intros; contradiction|].
  split; [intros; exfalso; lra|].
  destruct (find (fun u => String.eqb (u_account_number u) to_account)
              (users w)) as [r0|] eqn:Hr.
  2:{ split; [intros; reflexivity|]. split; intros; discriminate. }
  split; [intros; discriminate|].
  destruct (find (fun u => Nat.eqb (u_id u) (i_user_id who)) (users w))
    as [s0|] eqn:Hs; cbv beta iota.
  2:{ split; [intros; reflexivity|]. intros; discriminate. }
  split; [intros; discriminate|].
  intros r s _ _ Hr' Hs'. injection Hr' as <-. injection Hs' as <-.
  destruct (Nat.eqb_spec (u_id s0) (u_id r0)) as [Heq|Hne].
  - split; [intros; reflexivity | intros; contradiction].
  - split; [intros; contradiction|]. intros _ Hlt.
    apply Qlt_bool_iff in Hlt. rewrite Hlt. reflexivity.
Qed.

(** ** The audit trail and the mail of the ledger *)

(** X6.  Each successful deposit, withdrawal and transfer appends exactly
    one audit entry, for the caller in the role of user and named after
    the operation; a call that fails appends none. *)
Theorem ledger_calls_are_audited rq w :
  let audited (h : Handler Response) (action : string) :=
    let out := run h w in
    (succeeded (fst out) = false -> audit_logs (snd out) = audit_logs w)
    /\ (succeeded (fst out) = true ->
        exists who entry,
          identity rq = Some who
          /\ audit_logs (snd out) = audit_logs w ++ [entry]
          /\ a_actor_id entry = i_user_id who
          /\ a_actor_role entry = "user"
          /\ a_action entry = action) in
  audited (deposit rq) "deposit"
  /\ audited (withdraw rq) "withdrawal"
  /\ audited (transfer rq) "transfer".
Proof.
  intros audited. subst audited. cbv beta zeta. split; [|split].
  - destruct (deposit_outcome rq w) as [[Hf ->]|Hok].
    + split; [reflexivity | congruence].
    + destruct Hok as (who & user & t & e & Hid & _ & _ & Hr & _ & _ & _
                       & _ & _ & Ha & H1 & H2 & H3 & _).
      split; [rewrite Hr; discriminate|].
      intros _. exists who, e. auto.
  - destruct (withdraw_outcome rq w) as [[Hf ->]|Hok].
    + split; [reflexivity | congruence].
    + destruct Hok as (who & user & t & e & Hid & _ & _ & _ & Hr & _ & _ & _
                       & _ & _ & Ha & H1 & H2 & H3 & _).
      split; [congruence|].
      intros _. exists who, e. auto.
  - destruct (transfer_outcome rq w) as [[Hf ->]|Hok].
    + split; [reflexivity | congruence].
    + destruct Hok as (who & s & r & d & c & e & Hid & _ & _ & _ & _ & _
                       & Hr & _ & _ & _ & _ & _ & _ & Ha & H1 & H2 & H3 & _).
      split; [congruence|].
      intros _. exists who, e. auto.
Qed.

(** X7.  Whether the mail server is up or down makes no difference to a
    deposit, withdrawal or transfer: the answer, the accounts, the
    transactions and the audit log come out the same. *)
Theorem mail_outage_never_blocks_the_ledger rq w up :
  let same (h : Handler Response) :=
    fst (run h (set_mail_up up w)) = fst (run h w)
    /\ users (snd (run h (set_mail_up up w))) = users (snd (run h w))
    /\ transactions (snd (run h (set_mail_up up w)))
       = transactions (snd (run h w))
    /\ audit_logs (snd (run h (set_mail_up up w)))
       = audit_logs (snd (run h w)) in
  same (deposit rq) /\ same (withdraw rq) /\ same (transfer rq).
Proof.
  intros same. subst same. cbv beta.
  destruct w as [us ts rs al nid clk tk mu ob mf].
  unfold set_mail_up; world_simpl. split; [|split].
  - unfold deposit. step_handler; world_simpl.
    destruct (identity rq); [|repeat split]. cbv beta iota zeta.
    destruct (Qle_bool _ 0); [repeat split|].
    destruct (Qlt_bool 1000000 _); [repeat split|].
    destruct (find _ us); world_simpl; [|repeat split].
    destruct up, mu; world_simpl; repeat split.
  - unfold withdraw. step_handler; world_simpl.
    destruct (identity rq); [|repeat split]. cbv beta iota zeta.
    destruct (Qle_bool _ 0); [repeat split|].
    destruct (find _ us) as [u|]; world_simpl; [|repeat split].
    destruct (Qlt_bool (u_balance u) _); [repeat split|].
    destruct up, mu; world_simpl; repeat split.
  - unfold transfer. step_handler; world_simpl.
    destruct (identity rq); [|repeat split]. cbv beta iota zeta.
    destruct (falsy_string _); [repeat split|].
    destruct (Qle_bool _ 0); [repeat split|].
    match goal with
    | |- context [find (fun u => String.eqb (u_account_number u) ?a) us] =>
        destruct (find (fun u => String.eqb (u_account_number u) a) us)
          as [r|]
    end; world_simpl; [|repeat split].
    destruct (find _ us) as [s|]; world_simpl; [|repeat split].
    destruct (Nat.eqb (u_id s) (u_id r)); [repeat split|].
    destruct (Qlt_bool (u_balance s) _); [repeat split|].
    destruct up, mu; world_simpl; repeat split.
Qed.

(** ** What a decision does to the whole world *)

Lemma grant_outcome jwt secret rq id w :
  let out := run (grant_access jwt secret rq id) w in
  match request_of id w with
  | None => out = (Json (Error "Access request not found") 404, w)
  | Some req =>
      if negb (status_eqb (r_status req) pending) then
        out = (Json (Error (String.append "Request already "
                              (status_name (r_status req)))) 400, w)
      else if Z.ltb (r_expires_at req) (clock w (ticks w)) then
        out = (RequestExpired,
               set_access_requests
                 (update_one (fun r => Nat.eqb (r_id r) id)
                    (set_status expired))
                 (set_ticks (S (ticks w)) w))
      else
        fst out = Json (GrantOk "30 minutes") 200
        /\ access_requests (snd out)
           = update_one (fun r => Nat.eqb (r_id r) id)
               (set_granted (jwt_encode jwt (issued_claims w req id) secret)
                  (clock w (3 + ticks w)))
               (access_requests w)
        /\ users (snd out) = users w
        /\ transactions (snd out) = transactions w
        /\ outbox (snd out) = outbox w ++ decision_mail w req "granted"
        /\ ticks (snd out) = (5 + ticks w)%nat
        /\ clock (snd out) = clock w
        /\ exists entry,
             audit_logs (snd out) = audit_logs w ++ [entry]
             /\ a_actor_id entry = r_user_id req
             /\ a_actor_role entry = "user"
             /\ a_action entry = "grant_admin_access"
  end.
Proof.
  intros out. subst out.
  unfold request_of, grant_access, generate_permission_token, decision_mail,
    issued_claims, account.
  step_handler.
  destruct w as [us ts rs al nid clk tk mu ob mf]; world_simpl.
  destruct (find _ rs) as [req|]; [|reflexivity].
  destruct (negb (status_eqb (r_status req) pending)); [reflexivity|].
  world_simpl.
  destruct (Z.ltb (r_expires_at req) (clk tk)); world_simpl; [reflexivity|].
  destruct (find (fun u => Nat.eqb (u_id u) (r_admin_id req)) us) as [a|];
    destruct (find (fun u => Nat.eqb (u_id u) (r_user_id req)) us) as [u|];
    world_simpl; try destruct mu; world_simpl;
    rewrite ?app_nil_r;
    repeat (split; [reflexivity|]); eexists; repeat split.
Qed.

Lemma deny_outcome rq id w :
  let out := run (deny_access rq id) w in
  match request_of id w with
  | None => out = (Json (Error "Access request not found") 404, w)
  | Some req =>
      if negb (status_eqb (r_status req) pending) then
        out = (Json (Error (String.append "Request already "
                              (status_name (r_status req)))) 400, w)
      else
        fst out = Json DenyOk 200
        /\ access_requests (snd out)
           = update_one (fun r => Nat.eqb (r_id r) id)
               (set_denied (clock w (ticks w))) (access_requests w)
        /\ users (snd out) = users w
        /\ transactions (snd out) = transactions w
        /\ outbox (snd out) = outbox w ++ decision_mail w req "denied"
        /\ ticks (snd out) = (2 + ticks w)%nat
        /\ clock (snd out) = clock w
        /\ exists entry,
             audit_logs (snd out) = audit_logs w ++ [entry]
             /\ a_actor_id entry = r_user_id req
             /\ a_actor_role entry = "user"
             /\ a_action entry = "deny_admin_access"
  end.
Proof.
  intros out. subst out.
  unfold request_of, deny_access, decision_mail, account.
  step_handler.
  destruct w as [us ts rs al nid clk tk mu ob mf]; world_simpl.
  destruct (find _ rs) as [req|]; [|reflexivity].
  destruct (negb (status_eqb (r_status req) pending)); [reflexivity|].
  world_simpl.
  destruct (find (fun u => Nat.eqb (u_id u) (r_admin_id req)) us) as [a|];
    destruct (find (fun u => Nat.eqb (u_id u) (r_user_id req)) us) as [u|];
    world_simpl; try destruct mu; world_simpl;
    rewrite ?app_nil_r;
    repeat (split; [reflexivity|]); eexists; repeat split.
Qed.

Lemma request_access_outcome rq user_id w :
  let out := run (request_access rq user_id) w in
  let reason := strip (or_default (j_reason (json rq)) "") in
  (succeeded (fst out) = false /\ snd out = w)
  \/ (exists who user entry,
        identity rq = Some who
        /\ i_role who = "admin"
        /\ reason_ok rq = true
        /\ user_account user_id w = Some user
        /\ find (pending_for (i_user_id who) user_id) (access_requests w)
           = None
        /\ fst out
           = Json (RequestAccessOk (next_id w) (mail_up w)
                     (clock w (S (ticks w)) + 24 * hour_us)%Z) 201
        /\ access_requests (snd out)
           = access_requests w ++ [created_request w who user_id reason]
        /\ next_id (snd out) = S (next_id w)
        /\ users (snd out) = users w
        /\ transactions (snd out) = transactions w
        /\ outbox (snd out)
           = (if mail_up w
              then outbox w
                   ++ [AccessRequestMail (u_email user) (u_name user)
                         (i_name who) reason (next_id w)]
              else outbox w)
        /\ audit_logs (snd out) = audit_logs w ++ [entry]
        /\ a_actor_id entry = i_user_id who
        /\ a_actor_role entry = "admin"
        /\ a_action entry = "request_account_access"
        /\ a_target_user_id entry = Some user_id).
Proof.
  intros out reason. subst out.
  unfold request_access, reason_ok, user_account, created_request.
  step_handler. fold reason.
  destruct (identity rq) as [who|]; [|left; split; reflexivity].
  cbv beta iota.
  destruct (String.eqb_spec (i_role who) "admin") as [Hrole|Hrole];
    cbn [negb]; [|left; split; reflexivity].
  destruct (String.eqb reason "" || (String.length reason <? 10)%nat)
    eqn:Hreason; [left; split; reflexivity|].
  destruct w as [us ts rs al nid clk tk mu ob mf]; world_simpl.
  destruct (find _ us) as [user|]; world_simpl; [|left; split; reflexivity].
  match goal with |- context [find ?q rs] =>
    change q with (pending_for (i_user_id who) user_id);
    destruct (find (pending_for (i_user_id who) user_id) rs) eqn:Hex
  end; [left; split; reflexivity|].
  right. destruct mu; world_simpl; exists who, user; eexists;
    repeat (split; [first [reflexivity | assumption]|]); reflexivity.
Qed.

(** ** Creating a request *)



(** ** Decided requests are final *)

(** X9.  A request that is granted, denied or expired is final: a grant
    or deny naming it is answered 400 "Request already ..." with the world
    untouched, and no sequence of calls ever changes it.  In particular
    nothing revokes a grant. *)
Theorem decided_requests_are_final :
  (forall jwt secret rq id w req,
     request_of id w = Some req ->
     r_status req <> pending ->
     run (grant_access jwt secret rq id) w
     = (Json (Error (String.append "Request already "
                       (status_name (r_status req)))) 400, w)
     /\ run (deny_access rq id) w
        = (Json (Error (String.append "Request already "
                          (status_name (r_status req)))) 400, w))
  /\ (forall jwt secret w0 w id req,
        request_of id w0 = Some req ->
        r_status req <> pending ->
        reachable jwt secret w0 w ->
        request_of id w = Some req).
Proof.
  assert (Hnow : forall jwt secret rq id w req,
            request_of id w = Some req ->
            r_status req <> pending ->
            run (grant_access jwt secret rq id) w
            = (Json (Error (String.append "Request already "
                              (status_name (r_status req)))) 400, w)
            /\ run (deny_access rq id) w
               = (Json (Error (String.append "Request already "
                                 (status_name (r_status req)))) 400, w)).
  { intros jwt secret rq id w req Hreq Hst.
    pose proof (grant_outcome jwt secret rq id w) as Hg.
    pose proof (deny_outcome rq id w) as Hd.
    cbv zeta in Hg, Hd. rewrite Hreq in Hg, Hd.
    assert (Hn : negb (status_eqb (r_status req) pending) = true)
      by (destruct (r_status req); simpl; congruence).
    rewrite Hn in Hg, Hd. split; assumption. }
  split; [exact Hnow|].
  intros jwt secret w0 w id req Hreq Hst Hreach.
  induction Hreach as [|w c Hreach IH]; [exact Hreq|].
  destruct (is_decision c) eqn:Hc.
  - destruct c as [rq|rq|rq|rq uid|rq uid|rq rid|rq rid]; try discriminate;
      simpl.
    + destruct (Nat.eq_dec id rid) as [->|Hne].
      * destruct (Hnow jwt secret rq rid w req IH Hst) as [-> _]. exact IH.
      * unfold request_of.
        apply (keeps_run (fun l => find _ l = Some req));
          [apply keeps_grant_access_other; exact Hne | exact IH].
    + destruct (Nat.eq_dec id rid) as [->|Hne].
      * destruct (Hnow jwt secret rq rid w req IH Hst) as [_ ->]. exact IH.
      * unfold request_of.
        apply (keeps_run (fun l => find _ l = Some req));
          [apply keeps_deny_access_other; exact Hne | exact IH].
  - apply other_calls_keep_requests; assumption.
Qed.

(** ** A token exactly on granted requests *)

Lemma Forall_update_first {A} (P : A -> Prop) p f (l : list A) x :
  Forall P l -> find p l = Some x -> P (f x) -> Forall P (update_one p f l).
Proof.
  induction l as [|d l IH]; simpl; intros Hl Hf Hx; [constructor|].
  inversion Hl as [|? ? Hd Hl']; subst.
  destruct (p d).
  - injection Hf as ->. constructor; assumption.
  - constructor; [exact Hd | now apply IH].
Qed.

Lemma pending_has_no_token r :
  token_iff_granted r -> r_status r = pending -> r_permission_token r = None.
Proof.
  unfold token_iff_granted. intros [_ H] Hst.
  destruct (r_permission_token r) as [t|]; [|reflexivity].
  assert (r_status r = granted) by (apply H; discriminate). congruence.
Qed.

Lemma status_pending_negb req :
  negb (status_eqb (r_status req) pending) = false -> r_status req = pending.
Proof. destruct (r_status req); simpl; congruence. Qed.

(** X10.  A request carries a permission token exactly when its status is
    granted: the property holds in every world reachable from one where
    it holds. *)
Theorem token_exactly_on_granted_requests jwt secret w0 w :
  Forall token_iff_granted (access_requests w0) ->
  reachable jwt secret w0 w ->
  Forall token_iff_granted (access_requests w).
Proof.
  intros H0 Hreach. induction Hreach as [|w c Hreach IH]; [exact H0|].
  destruct c as [rq|rq|rq|rq uid|rq uid|rq id|rq id]; simpl.
  - apply keeps_run; [apply keeps_deposit | exact IH].
  - apply keeps_run; [apply keeps_withdraw | exact IH].
  - apply keeps_run; [apply keeps_transfer | exact IH].
  - destruct (request_access_outcome rq uid w) as [[_ ->]|Hok]; [exact IH|].
    destruct Hok as (who & user & entry & _ & _ & _ & _ & _ & _ & -> & _).
    apply Forall_app. split; [exact IH|]. constructor; [|constructor].
    unfold token_iff_granted. simpl. split; congruence.
  - apply keeps_run; [apply keeps_view_user_account | exact IH].
  - pose proof (grant_outcome jwt secret rq id w) as Hg. cbv zeta in Hg.
    destruct (request_of id w) as [req|] eqn:Hreq; [|rewrite Hg; exact IH].
    destruct (negb (status_eqb (r_status req) pending)) eqn:Hst;
      [rewrite Hg; exact IH|].
    apply status_pending_negb in Hst.
    assert (Hin : In req (access_requests w))
      by (apply find_some in Hreq; tauto).
    assert (Hnone : r_permission_token req = None).
    { apply pending_has_no_token; [|exact Hst].
      rewrite Forall_forall in IH. exact (IH req Hin). }
    destruct (Z.ltb (r_expires_at req) (clock w (ticks w))).
    + rewrite Hg. simpl.
      apply (Forall_update_first _ _ _ _ req IH Hreq).
      unfold token_iff_granted. simpl. rewrite Hnone.
      split; [discriminate | congruence].
    + destruct Hg as (_ & -> & _).
      apply (Forall_update_first _ _ _ _ req IH Hreq).
      unfold token_iff_granted. simpl. split; [discriminate | reflexivity].
  - pose proof (deny_outcome rq id w) as Hd. cbv zeta in Hd.
    destruct (request_of id w) as [req|] eqn:Hreq; [|rewrite Hd; exact IH].
    destruct (negb (status_eqb (r_status req) pending)) eqn:Hst;
      [rewrite Hd; exact IH|].
    apply status_pending_negb in Hst.
    assert (Hin : In req (access_requests w))
      by (apply find_some in Hreq; tauto).
    assert (Hnone : r_permission_token req = None).
    { apply pending_has_no_token; [|exact Hst].
      rewrite Forall_forall in IH. exact (IH req Hin). }
    destruct Hd as (_ & -> & _).
    apply (Forall_update_first _ _ _ _ req IH Hreq).
    unfold token_iff_granted. simpl. rewrite Hnone.
    split; [discriminate | congruence].
Qed.

(** ** A grant that comes too late *)

(** X11.  A grant of a pending request after its expiry answers 410,
    marks the request expired and does nothing else: no token, no mail,
    no audit entry, accounts and transactions untouched.  Every later
    grant or deny of it is answered 400 "Request already expired". *)
Theorem late_grant_expires_the_request jwt secret rq id w req :
  request_of id w = Some req ->
  r_status req = pending ->
  (r_expires_at req < clock w (ticks w))%Z ->
  let out := run (grant_access jwt secret rq id) w in
  fst out = RequestExpired
  /\ request_of id (snd out) = Some (set_status expired req)
  /\ users (snd out) = users w
  /\ transactions (snd out) = transactions w
  /\ audit_logs (snd out) = audit_logs w
  /\ outbox (snd out) = outbox w
  /\ (forall rq', fst (run (grant_access jwt secret rq' id) (snd out))
                  = Json (Error "Request already expired") 400)
  /\ (forall rq', fst (run (deny_access rq' id) (snd out))
                  = Json (Error "Request already expired") 400).
Proof.
  intros Hreq Hst Hexp out.
  pose proof (grant_outcome jwt secret rq id w) as Hg. cbv zeta in Hg.
  rewrite Hreq, Hst in Hg. cbn [status_eqb negb] in Hg.
  apply Z.ltb_lt in Hexp. rewrite Hexp in Hg. fold out in Hg.
  assert (Hafter : request_of id (snd out) = Some (set_status expired req)).
  { rewrite Hg. unfold request_of in *. simpl.
    rewrite (find_update_one_same r_id) by reflexivity.
    rewrite Hreq. reflexivity. }
  rewrite Hg at 1 3 4 5 6. simpl.
  repeat (split; [reflexivity || exact Hafter|]).
  split; intros rq'.
  - pose proof (grant_outcome jwt secret rq' id (snd out)) as H.
    cbv zeta in H. rewrite Hafter in H. simpl in H. rewrite H. reflexivity.
  - pose proof (deny_outcome rq' id (snd out)) as H.
    cbv zeta in H. rewrite Hafter in H. simpl in H. rewrite H. reflexivity.
Qed.

(** ** Viewing an account *)

Lemma view_outcome jwt secret rq user_id w :
  let out := run (view_user_account jwt secret rq user_id) w in
  (succeeded (fst out) = false /\ audit_logs (snd out) = audit_logs w)
  \/ (exists who token payload user recent entry,
        identity rq = Some who
        /\ x_permission_token rq = Some token
        /\ jwt_decode jwt token secret (clock w (ticks w)) = Decoded payload
        /\ account user_id w = Some user
        /\ fst out
           = Json (AccountView user recent
                     "This access is logged and monitored.") 200
        /\ recent
           = firstn 20
               (newest_first
                  (List.filter (fun t => Nat.eqb (t_user_id t) user_id)
                     (transactions w)))
        /\ audit_logs (snd out) = audit_logs w ++ [entry]
        /\ a_actor_id entry = i_user_id who
        /\ a_actor_role entry = "admin"
        /\ a_action entry = "viewed_user_account"
        /\ a_target_user_id entry = Some user_id
        /\ a_details entry = [("request_id", id_num (c_request_id payload))]
        /\ a_timestamp entry = clock w (S (ticks w))).
Proof.
  intros out. subst out.
  unfold view_user_account, verify_permission_token, account. step_handler.
  destruct (identity rq) as [who|]; [|left; split; reflexivity].
  cbv beta iota.
  destruct (negb (String.eqb (i_role who) "admin"));
    [left; split; reflexivity|].
  destruct (x_permission_token rq) as [token|]; cbn [falsy_string];
    [|left; split; reflexivity].
  destruct (String.eqb token ""); [left; split; reflexivity|].
  cbn [or_default].
  destruct w as [us ts rs al nid clk tk mu ob mf]; world_simpl.
  destruct (jwt_decode jwt token secret (clk tk)) as [payload| |] eqn:Hdec;
    world_simpl; try (left; split; reflexivity).
  destruct (negb _ || negb _); [left; split; reflexivity|].
  destruct (find _ rs); world_simpl; [|left; split; reflexivity].
  destruct (find _ us) as [user|] eqn:Hu; world_simpl;
    [|left; split; reflexivity].
  right. exists who, token, payload, user. eexists. eexists.
  repeat (split; [first [reflexivity | eassumption]|]). reflexivity.
Qed.

(** X12.  [view_user_account] never changes accounts, transactions,
    access requests or the outbox.  A successful view appends exactly one
    audit entry, for the admin and naming the account viewed; a refused
    view appends none. *)
Theorem view_is_read_only_and_audited jwt secret rq user_id w :
  let out := run (view_user_account jwt secret rq user_id) w in
  users (snd out) = users w
  /\ transactions (snd out) = transactions w
  /\ access_requests (snd out) = access_requests w
  /\ outbox (snd out) = outbox w
  /\ (succeeded (fst out) = false -> audit_logs (snd out) = audit_logs w)
  /\ (succeeded (fst out) = true ->
      exists who entry,
        identity rq = Some who
        /\ audit_logs (snd out) = audit_logs w ++ [entry]
        /\ a_actor_id entry = i_user_id who
        /\ a_actor_role entry = "admin"
        /\ a_action entry = "viewed_user_account"
        /\ a_target_user_id entry = Some user_id).
Proof.
  intros out. subst out.
  split; [apply leaves_run, view_leaves_users|].
  split; [apply leaves_run, view_leaves_transactions|].
  split; [apply leaves_run, view_leaves_access_requests|].
  split.
  { apply leaves_run. unfold view_user_account. leaves_auto. }
  destruct (view_outcome jwt secret rq user_id w) as [[Hf Ha]|Hok].
  - split; [intros _; exact Ha | congruence].
  - destruct Hok as (who & token & payload & user & recent & entry & Hid & _
                     & _ & _ & Hr & _ & Ha & H1 & H2 & H3 & H4 & _).
    split; [rewrite Hr; discriminate|].
    intros _. exists who, entry. auto 10.
Qed.

(** ** From the owner's grant to the admin's view *)

Lemma find_granted_after_grant id token at_ l req :
  find (fun r => Nat.eqb (r_id r) id) l = Some req ->
  find (fun r => Nat.eqb (r_id r) id && status_eqb (r_status r) granted)
    (update_one (fun r => Nat.eqb (r_id r) id) (set_granted token at_) l)
  = Some (set_granted token at_ req).
Proof.
  induction l as [|d l IH]; simpl; [discriminate|].
  destruct (Nat.eqb (r_id d) id) eqn:E; simpl.
  - intros H. injection H as ->. rewrite E. reflexivity.
  - intros H. rewrite E. simpl. exact (IH H).
Qed.

Lemma view_success jwt secret rq user_id w who token payload req user :
  identity rq = Some who ->
  i_role who = "admin" ->
  x_permission_token rq = Some token ->
  token <> "" ->
  jwt_decode jwt token secret (clock w (ticks w)) = Decoded payload ->
  c_admin_id payload = i_user_id who ->
  c_user_id payload = user_id ->
  find (fun r => Nat.eqb (r_id r) (c_request_id payload)
                 && status_eqb (r_status r) granted) (access_requests w)
    = Some req ->
  account user_id w = Some user ->
  fst (run (view_user_account jwt secret rq user_id) w)
  = Json (AccountView user
            (firstn 20
               (newest_first
                  (List.filter (fun t => Nat.eqb (t_user_id t) user_id)
                     (transactions w))))
            "This access is logged and monitored.") 200.
Proof.
  intros Hid Hrole Htok Hne Hdec Hadm Husr Hreq Hacc.
  unfold view_user_account, verify_permission_token, account in *.
  step_handler. rewrite Hid; cbv beta iota. rewrite Hrole.
  change (negb (String.eqb "admin" "admin")) with false. cbv iota.
  rewrite Htok. cbn [falsy_string or_default].
  apply String.eqb_neq in Hne. rewrite Hne.
  destruct w as [us ts rs al nid clk tk mu ob mf]; world_simpl.
  cbv beta iota delta [clock ticks access_requests users] in Hdec, Hreq, Hacc.
  rewrite Hdec; world_simpl. rewrite Hadm, Husr, !Nat.eqb_refl.
  cbn [negb orb]. rewrite Hreq; world_simpl. rewrite Hacc; world_simpl.
  reflexivity.
Qed.

(** X13.  Grant, then view.  After any caller grants a pending, unexpired
    request, the request stores the token signed over the request's own
    admin, account and id; if the JWT library decodes that token at the
    time of the view, the requesting admin's view of the account
    succeeds and shows the owner's document. *)
Theorem granted_token_opens_the_account
  jwt secret rq_owner rq_admin id w req who owner :
  request_of id w = Some req ->
  r_status req = pending ->
  (clock w (ticks w) <= r_expires_at req)%Z ->
  account (r_user_id req) w = Some owner ->
  let token := jwt_encode jwt (issued_claims w req id) secret in
  token <> "" ->
  jwt_decode jwt token secret (clock w (5 + ticks w))
    = Decoded (issued_claims w req id) ->
  identity rq_admin = Some who ->
  i_role who = "admin" ->
  i_user_id who = r_admin_id req ->
  x_permission_token rq_admin = Some token ->
  let w1 := snd (run (grant_access jwt secret rq_owner id) w) in
  option_map r_permission_token (request_of id w1) = Some (Some token)
  /\ succeeded
       (fst (run (view_user_account jwt secret rq_admin (r_user_id req)) w1))
     = true
  /\ exists recent note,
       fst (run (view_user_account jwt secret rq_admin (r_user_id req)) w1)
       = Json (AccountView owner recent note) 200.
Proof.
  intros Hreq Hst Hlive Hown token Hne Hdec Hid Hrole Hwho Htok w1.
  pose proof (grant_outcome jwt secret rq_owner id w) as Hg. cbv zeta in Hg.
  rewrite Hreq, Hst in Hg. cbn [status_eqb negb] in Hg.
  apply Z.ltb_ge in Hlive. rewrite Hlive in Hg. fold w1 token in Hg.
  destruct Hg as (_ & Hl & Hu & Ht & _ & Htk & Hclk & _).
  split.
  { unfold request_of. rewrite Hl.
    rewrite (find_update_one_same r_id) by reflexivity.
    unfold request_of in Hreq. rewrite Hreq. reflexivity. }
  assert (Hview :
    fst (run (view_user_account jwt secret rq_admin (r_user_id req)) w1)
    = Json (AccountView owner
              (firstn 20
                 (newest_first
                    (List.filter
                       (fun t => Nat.eqb (t_user_id t) (r_user_id req))
                       (transactions w1))))
              "This access is logged and monitored.") 200).
  { apply (view_success jwt secret rq_admin (r_user_id req) w1 who token
             (issued_claims w req id)
             (set_granted token (clock w (3 + ticks w)) req));
      try assumption.
    - rewrite Hclk, Htk. exact Hdec.
    - simpl. symmetry. exact Hwho.
    - reflexivity.
    - rewrite Hl. simpl. apply find_granted_after_grant. exact Hreq.
    - unfold account. rewrite Hu. exact Hown. }
  split; [rewrite Hview; reflexivity|].
  eexists. eexists. exact Hview.
Qed.

Lemma granted_token_opens_the_account_witness :
  succeeded
    (fst (run (view_user_account Desk.desk_jwt "s3cret" Desk.admin_view 1)
            (snd (run (grant_access Desk.desk_jwt "s3cret" Desk.owner_click
                         100)
                    (Sample.world_with (Sample.request_100 pending))))))
  = true.
Proof.
  apply (granted_token_opens_the_account Desk.desk_jwt "s3cret"
           Desk.owner_click Desk.admin_view 100%nat
           (Sample.world_with (Sample.request_100 pending))
           (Sample.request_100 pending) (Sample.login Sample.mallory)
           Sample.alice);
    try reflexivity; discriminate.
Defined.

(** ** Runs on the small bank *)



Lemma transfer_rejections_witness :
  run (transfer (Sample.request_from (Some (Sample.login Sample.alice))
                   (Sample.transfer_json 100 "ACC0000000001") None))
    Sample.world
  = (Json (Error "Cannot transfer to own account") 400, Sample.world)
  /\ run (transfer (Sample.request_from (Some (Sample.login Sample.alice))
                      (Sample.transfer_json 100 "ACC9999999999") None))
       Sample.world
     = (Json (Error "Recipient account not found") 404, Sample.world).
Proof.
  split.
  - destruct (transfer_rejections
                (Sample.request_from (Some (Sample.login Sample.alice))
                   (Sample.transfer_json 100 "ACC0000000001") None)
                Sample.world (Sample.login Sample.alice) eq_refl)
      as (_ & _ & _ & _ & H).
    destruct (H Sample.alice Sample.alice) as [Hself _];
      [discriminate | reflexivity | reflexivity | reflexivity |].
    apply Hself. reflexivity.
  - destruct (transfer_rejections
                (Sample.request_from (Some (Sample.login Sample.alice))
                   (Sample.transfer_json 100 "ACC9999999999") None)
                Sample.world (Sample.login Sample.alice) eq_refl)
      as (_ & _ & H & _).
    apply H; [discriminate | reflexivity | reflexivity].
Defined.

Lemma ledger_calls_are_audited_witness :
  exists entry,
    audit_logs
      (snd (run (deposit (Sample.request_from
                            (Some (Sample.login Sample.alice))
                            (Sample.amount_json 500) None)) Sample.world))
    = audit_logs Sample.world ++ [entry]
    /\ a_actor_id entry = 1%nat
    /\ a_action entry = "deposit".
Proof.
  destruct (ledger_calls_are_audited
              (Sample.request_from (Some (Sample.login Sample.alice))
                 (Sample.amount_json 500) None) Sample.world)
    as [[_ H] _].
  destruct (H eq_refl) as (who & entry & Hid & Ha & Hactor & _ & Hact).
  exists entry. injection Hid as <-. auto.
Defined.


Lemma decided_requests_are_final_witness :
  run (deny_access Desk.owner_click 100)
    (Sample.world_with (Sample.request_100 granted))
  = (Json (Error "Request already granted") 400,
     Sample.world_with (Sample.request_100 granted))
  /\ request_of 100
       (snd (run (serve Sample.toy_jwt "s3cret"
                    (CallDenyAccess Desk.owner_click 100))
               (Sample.world_with (Sample.request_100 granted))))
     = Some (Sample.request_100 granted).
Proof.
  destruct decided_requests_are_final as [Hnow Hever].
  split.
  - apply (Hnow Sample.toy_jwt "s3cret" Desk.owner_click 100%nat
             (Sample.world_with (Sample.request_100 granted))
             (Sample.request_100 granted)); [reflexivity | discriminate].
  - apply (Hever Sample.toy_jwt "s3cret"
             (Sample.world_with (Sample.request_100 granted)));
      [reflexivity | discriminate | apply reach_call, reach_start].
Defined.

Lemma token_exactly_on_granted_requests_witness :
  Forall token_iff_granted
    (access_requests
       (snd (run (serve Sample.toy_jwt "s3cret"
                    (CallGrantAccess Desk.owner_click 100))
               (Sample.world_with (Sample.request_100 pending))))).
Proof.
  apply (token_exactly_on_granted_requests Sample.toy_jwt "s3cret"
           (Sample.world_with (Sample.request_100 pending))).
  - repeat constructor; simpl; congruence.
  - apply reach_call, reach_start.
Defined.

Lemma late_grant_expires_the_request_witness :
  fst (run (grant_access Sample.toy_jwt "s3cret" Desk.owner_click 100)
         (Sample.world_with Sample.stale_request_100))
  = RequestExpired.
Proof.
  apply (late_grant_expires_the_request Sample.toy_jwt "s3cret"
           Desk.owner_click 100%nat
           (Sample.world_with Sample.stale_request_100)
           Sample.stale_request_100); reflexivity.
Defined.

Lemma view_is_read_only_and_audited_witness :
  exists entry,
    audit_logs
      (snd (run (view_user_account Sample.toy_jwt "s3cret"
                   (Sample.request_from (Some (Sample.login Sample.mallory))
                      Sample.no_json (Some "token-100")) 1)
              (Sample.world_with (Sample.request_100 granted))))
    = audit_logs (Sample.world_with (Sample.request_100 granted)) ++ [entry]
    /\ a_action entry = "viewed_user_account".
Proof.
  destruct (view_is_read_only_and_audited Sample.toy_jwt "s3cret"
              (Sample.request_from (Some (Sample.login Sample.mallory))
                 Sample.no_json (Some "token-100")) 1%nat
              (Sample.world_with (Sample.request_100 granted)))
    as (_ & _ & _ & _ & _ & H).
  destruct (H eq_refl) as (who & entry & _ & Ha & _ & _ & Hact & _).
  exists entry. auto.
Defined.

(** ** The gates in front of the routes *)

(** X14.  A caller without a login is refused by the ledger routes and
    the admin routes, and a logged-in caller whose role is not admin is
    refused by the admin routes with 403, whatever else the request
    carries (a valid permission token included); the world is untouched. *)
Theorem callers_without_the_role_are_refused :
  (forall jwt secret rq w uid,
     identity rq = None ->
     run (deposit rq) w = (MissingLogin, w)
     /\ run (withdraw rq) w = (MissingLogin, w)
     /\ run (transfer rq) w = (MissingLogin, w)
     /\ run (request_access rq uid) w = (MissingLogin, w)
     /\ run (view_user_account jwt secret rq uid) w = (MissingLogin, w))
  /\ (forall jwt secret rq w uid who,
        identity rq = Some who ->
        i_role who <> "admin" ->
        run (request_access rq uid) w
        = (Json (Error "Admin access required") 403, w)
        /\ run (view_user_account jwt secret rq uid) w
           = (Json (Error "Admin access required") 403, w)).
Proof.
  split.
  - intros jwt secret rq w uid Hid.
    unfold deposit, withdraw, transfer, request_access, view_user_account.
    step_handler. rewrite Hid. repeat split.
  - intros jwt secret rq w uid who Hid Hrole.
    unfold request_access, view_user_account. step_handler.
    rewrite Hid; cbv beta iota.
    apply String.eqb_neq in Hrole. rewrite Hrole. split; reflexivity.
Qed.

Lemma callers_without_the_role_are_refused_witness :
  run (view_user_account Sample.toy_jwt "s3cret"
         (Sample.request_from (Some (Sample.login Sample.bob))
            Sample.no_json (Some "token-100")) 1)
    (Sample.world_with (Sample.request_100 granted))
  = (Json (Error "Admin access required") 403,
     Sample.world_with (Sample.request_100 granted))
  /\ run (deposit (Sample.request_from None (Sample.amount_json 5) None))
       Sample.world
     = (MissingLogin, Sample.world).
Proof.
  destruct callers_without_the_role_are_refused as [Hlogin Hadmin].
  split.
  - apply (Hadmin Sample.toy_jwt "s3cret" _ _ 1%nat
             (Sample.login Sample.bob)); [reflexivity | discriminate].
  - apply (Hlogin Sample.toy_jwt "s3cret" _ _ 1%nat). reflexivity.
Defined.

(** ** Newest first *)

Lemma insert_newest_perm t l : Permutation (t :: l) (insert_newest t l).
Proof.
  induction l as [|x l IH]; simpl; [reflexivity|].
  destruct (Z.ltb (t_timestamp x) (t_timestamp t)); [reflexivity|].
  rewrite perm_swap. now constructor.
Qed.

Lemma insert_newest_in t l y :
  In y (insert_newest t l) -> y = t \/ In y l.
Proof.
  intros H. apply Permutation_sym in H || idtac.
  apply (Permutation_in y (Permutation_sym (insert_newest_perm t l))) in H.
  destruct H as [<-|H]; auto.
Qed.

Lemma insert_newest_sorted t l :
  StronglySorted newer_first l -> StronglySorted newer_first (insert_newest t l).
Proof.
  induction l as [|x l IH]; simpl; intros Hs.
  - repeat constructor.
  - inversion Hs as [|? ? Hl Hx]; subst.
    destruct (Z.ltb (t_timestamp x) (t_timestamp t)) eqn:E.
    + apply Z.ltb_lt in E. constructor; [exact Hs|].
      constructor; [unfold newer_first; lia|].
      rewrite Forall_forall in *. intros y Hy.
      specialize (Hx y Hy). unfold newer_first in *. lia.
    + apply Z.ltb_ge in E. constructor; [apply IH; exact Hl|].
      rewrite Forall_forall in *. intros y Hy.
      apply insert_newest_in in Hy. destruct Hy as [->|Hy].
      * unfold newer_first. lia.
      * exact (Hx y Hy).
Qed.

Lemma fold_insert_newest l acc :
  Permutation (l ++ acc) (fold_left (fun a t => insert_newest t a) l acc)
  /\ (StronglySorted newer_first acc ->
      StronglySorted newer_first
        (fold_left (fun a t => insert_newest t a) l acc)).
Proof.
  revert acc. induction l as [|t l IH]; intros acc; simpl.
  - split; [reflexivity | trivial].
  - destruct (IH (insert_newest t acc)) as [Hp Hs]. split.
    + rewrite <- Hp. rewrite <- insert_newest_perm.
      apply Permutation_middle.
    + intros Hacc. apply Hs, insert_newest_sorted, Hacc.
Qed.

Lemma newest_first_perm l : Permutation l (newest_first l).
Proof.
  destruct (fold_insert_newest l []) as [Hp _].
  rewrite app_nil_r in Hp. exact Hp.
Qed.

Lemma newest_first_sorted l : StronglySorted newer_first (newest_first l).
Proof. apply fold_insert_newest. constructor. Qed.

Lemma in_firstn_in {A} n (l : list A) x : In x (firstn n l) -> In x l.
Proof.
  intros H. rewrite <- (firstn_skipn n l). apply in_or_app. now left.
Qed.

Lemma in_skipn_in {A} n (l : list A) x : In x (skipn n l) -> In x l.
Proof.
  intros H. rewrite <- (firstn_skipn n l). apply in_or_app. now right.
Qed.


Lemma sorted_firstn n l :
  StronglySorted newer_first l -> StronglySorted newer_first (firstn n l).
Proof.
  revert l. induction n as [|n IH]; intros l Hs; simpl; [constructor|].
  destruct l as [|x l]; [constructor|].
  inversion Hs as [|? ? Hl Hx]; subst. constructor; [apply IH, Hl|].
  rewrite Forall_forall in *. intros y Hy. apply Hx.
  exact (in_firstn_in n l y Hy).
Qed.



(** ** Pages of transactions *)

Lemma firstn_add {A} a b (l : list A) :
  firstn (a + b) l = firstn a l ++ firstn b (skipn a l).
Proof.
  revert l. induction a as [|a IH]; intros l; simpl; [reflexivity|].
  destruct l as [|x l]; simpl.
  - now rewrite firstn_nil.
  - now rewrite IH.
Qed.

Lemma concat_windows {A} n m (l : list A) :
  List.concat (List.map (fun k => firstn n (skipn (k * n) l)) (seq 0 m))
  = firstn (m * n) l.
Proof.
  induction m as [|m IH]; [reflexivity|].
  rewrite seq_S, map_app, concat_app, IH. simpl.
  rewrite app_nil_r. symmetry.
  replace (n + m * n)%nat with (m * n + n)%nat by lia.
  apply firstn_add.
Qed.

Lemma get_transactions_window rq page limit w who :
  identity rq = Some who ->
  (1 <= page)%Z -> (1 <= limit)%Z ->
  let mine := List.filter (fun t => Nat.eqb (t_user_id t) (i_user_id who))
                (transactions w) in
  get_transactions rq page limit w
  = inr {| pg_transactions :=
             firstn (Z.to_nat limit)
               (skipn (Z.to_nat (page - 1) * Z.to_nat limit)
                  (newest_first mine));
           pg_total := Z.of_nat (List.length mine);
           pg_page := page;
           pg_pages := ((Z.of_nat (List.length mine) + limit - 1) / limit)%Z
        |}.
Proof.
  intros Hid Hp Hl mine. unfold get_transactions, mongo_window.
  rewrite Hid. fold mine.
  assert (Hs : ((page - 1) * limit <? 0)%Z = false) by (apply Z.ltb_ge; nia).
  rewrite Hs.
  assert (Hz : (limit =? 0)%Z = false) by (apply Z.eqb_neq; lia).
  rewrite Hz. rewrite Z.abs_eq by lia.
  rewrite Z2Nat.inj_mul by lia. reflexivity.
Qed.

(** X16.  [get_transactions] for a logged-in caller.  With [limit] zero
    the route ends in a division by zero, whatever the page.  With page
    and limit at least one it answers a page of at most [limit] of the
    caller's transactions, newest first; [pages] is the total divided by
    the limit and rounded up; a page past the last is empty; and pages
    1 to [pages], one after the other, are exactly the caller's
    transactions, newest first. *)
Theorem get_transactions_pages rq w who :
  identity rq = Some who ->
  let mine := List.filter (fun t => Nat.eqb (t_user_id t) (i_user_id who))
                (transactions w) in
  (forall page, get_transactions rq page 0 w = inl PageZeroDivision)
  /\ (forall page limit, (1 <= page)%Z -> (1 <= limit)%Z ->
        exists p,
          get_transactions rq page limit w = inr p
          /\ pg_total p = Z.of_nat (List.length mine)
          /\ (Z.of_nat (List.length (pg_transactions p)) <= limit)%Z
          /\ StronglySorted newer_first (pg_transactions p)
          /\ (forall t, In t (pg_transactions p) -> In t mine)
          /\ ((pg_pages p - 1) * limit < pg_total p <= pg_pages p * limit)%Z
          /\ (pg_pages p < page -> pg_transactions p = [])%Z
          /\ pages_in_order rq limit w (Z.to_nat (pg_pages p))
             = newest_first mine).
Proof.
  intros Hid mine. split.
  - intros page. unfold get_transactions, mongo_window. rewrite Hid.
    rewrite Z.mul_0_r. reflexivity.
  - intros page limit Hp Hl.
    eexists. split; [apply (get_transactions_window rq page limit w who);
                     assumption|].
    fold mine. cbn [pg_total pg_transactions pg_pages].
    set (total := Z.of_nat (List.length mine)).
    set (pages := ((total + limit - 1) / limit)%Z).
    assert (Htot : (0 <= total)%Z) by (subst total; lia).
    assert (Hceil : ((pages - 1) * limit < total <= pages * limit)%Z).
    { subst pages.
      pose proof (Z.div_mod (total + limit - 1) limit ltac:(lia)) as Hdm.
      pose proof (Z.mod_pos_bound (total + limit - 1) limit ltac:(lia)).
      nia. }
    assert (Hpages : (0 <= pages)%Z) by nia.
    assert (Hlen : List.length (newest_first mine) = List.length mine)
      by (symmetry; apply Permutation_length, newest_first_perm).
    split; [reflexivity|].
    split.
    { pose proof (firstn_le_length (Z.to_nat limit)
                    (skipn (Z.to_nat (page - 1) * Z.to_nat limit)
                       (newest_first mine))). lia. }
    split.
    { apply sorted_firstn.
      generalize (Z.to_nat (page - 1) * Z.to_nat limit)%nat as k.
      generalize (newest_first_sorted mine).
      generalize (newest_first mine) as l.
      intros l Hsort k. revert l Hsort.
      induction k as [|k IH]; intros l Hsort; [exact Hsort|].
      destruct l as [|x l]; [constructor|]. simpl.
      inversion Hsort; subst. now apply IH. }
    split.
    { intros t Ht. apply in_firstn_in, in_skipn_in in Ht.
      exact (Permutation_in t (Permutation_sym (newest_first_perm mine)) Ht). }
    split; [exact Hceil|].
    split.
    { intros Hbeyond. rewrite skipn_all2; [apply firstn_nil|].
      rewrite Hlen. subst total. nia. }
    unfold pages_in_order.
    rewrite (map_ext_in _
               (fun k => firstn (Z.to_nat limit)
                           (skipn (k * Z.to_nat limit) (newest_first mine)))).
    + rewrite concat_windows. apply firstn_all2.
      rewrite Hlen. subst total. nia.
    + intros k _.
      rewrite (get_transactions_window rq (Z.of_nat (S k)) limit w who)
        by (assumption || lia).
      cbn [pg_transactions]. fold mine.
      replace (Z.to_nat (Z.of_nat (S k) - 1)) with k by lia. reflexivity.
Qed.

(** ** Activating and deactivating an account *)

Ltac step_route :=
  cbv beta iota zeta delta
    [login_only admin_only bind ret reply raise gets modify find_user
     find_access_request utcnow log_action].

Lemma toggle_outcome rq user_id w :
  let out := toggle_account rq user_id w in
  (exists r, fst out = Reply r /\ snd out = w)
  \/ (exists who user entry,
        identity rq = Some who
        /\ i_role who = "admin"
        /\ user_account user_id w = Some user
        /\ fst out = Next (negb (u_is_active user))
        /\ users (snd out)
           = update_one (fun u => Nat.eqb (u_id u) (u_id user))
               (set_is_active (negb (u_is_active user))) (users w)
        /\ transactions (snd out) = transactions w
        /\ access_requests (snd out) = access_requests w
        /\ outbox (snd out) = outbox w
        /\ audit_logs (snd out) = audit_logs w ++ [entry]
        /\ a_actor_id entry = i_user_id who
        /\ a_actor_role entry = "admin"
        /\ a_action entry = (if u_is_active user then "deactivated_account"
                             else "activated_account")
        /\ a_target_user_id entry = Some user_id).
Proof.
  intros out. subst out. unfold toggle_account, user_account. step_route.
  destruct (identity rq) as [who|]; [|left; eexists; split; reflexivity].
  destruct (String.eqb_spec (i_role who) "admin") as [Hrole|Hrole];
    cbn [negb]; [|left; eexists; split; reflexivity].
  destruct w as [us ts rs al nid clk tk mu ob mf]; world_simpl.
  destruct (find _ us) as [user|] eqn:Hu; world_simpl;
    [|left; eexists; split; reflexivity].
  right. exists who, user. eexists.
  repeat (split; [first [reflexivity | assumption]|]).
  split; [destruct (u_is_active user); reflexivity | reflexivity].
Qed.

Lemma toggle_refused rq user_id w r :
  fst (toggle_account rq user_id w) = Reply r ->
  identity rq = None
  \/ (exists who, identity rq = Some who /\ i_role who <> "admin")
  \/ user_account user_id w = None.
Proof.
  unfold toggle_account, user_account. step_route.
  destruct (identity rq) as [who|]; [|now left].
  destruct (String.eqb_spec (i_role who) "admin") as [Hrole|Hrole];
    cbn [negb]; [|right; left; eauto].
  destruct w as [us ts rs al nid clk tk mu ob mf]; world_simpl.
  destruct (find _ us) as [user|]; world_simpl; [discriminate|].
  intros _. right. right. reflexivity.
Qed.

Lemma map_update_one {A B} (g : A -> B) (p : A -> bool) f (l : list A) :
  (forall x, g (f x) = g x) ->
  List.map g (update_one p f l) = List.map g l.
Proof.
  intros Hg. induction l as [|d l IH]; simpl; [reflexivity|].
  destruct (p d); simpl; [now rewrite Hg | now rewrite IH].
Qed.

Lemma update_one_twice {A} (p : A -> bool) f g (l : list A) :
  (forall x, p (f x) = p x) ->
  update_one p g (update_one p f l)
  = update_one p (fun x => g (f x)) l.
Proof.
  intros Hp. induction l as [|d l IH]; simpl; [reflexivity|].
  destruct (p d) eqn:E; simpl.
  - now rewrite Hp, E.
  - now rewrite E, IH.
Qed.

Lemma update_one_fixes {A} (p : A -> bool) f (l : list A) x :
  find p l = Some x -> f x = x -> update_one p f l = l.
Proof.
  induction l as [|d l IH]; simpl; [discriminate|].
  destruct (p d).
  - intros H Hf. injection H as ->. now rewrite Hf.
  - intros H Hf. now rewrite IH.
Qed.

Lemma user_account_is_account user_id w user :
  NoDup (List.map u_id (users w)) ->
  user_account user_id w = Some user ->
  account user_id w = Some user /\ u_id user = user_id.
Proof.
  intros Hnd H. unfold user_account in H. apply find_some in H.
  destruct H as [Hin Hq]. apply andb_true_iff in Hq.
  destruct Hq as [Hid _]. apply Nat.eqb_eq in Hid.
  split; [|exact Hid]. unfold account. rewrite <- Hid.
  apply find_unique_id; assumption.
Qed.

(** X17.  With unique account ids, an admin's [toggle_account] on a user
    account answers the negated flag, rewrites that account's
    [is_active] and nothing else of it, leaves every other account, the
    total of the balances, the transactions and the access requests as
    they were, and a second toggle by any admin answers the original flag
    and restores the accounts exactly. *)
Theorem toggle_account_flips_only_the_flag rq user_id w who user :
  NoDup (List.map u_id (users w)) ->
  identity rq = Some who ->
  i_role who = "admin" ->
  user_account user_id w = Some user ->
  let out := toggle_account rq user_id w in
  fst out = Next (negb (u_is_active user))
  /\ account user_id (snd out)
     = Some (set_is_active (negb (u_is_active user)) user)
  /\ (forall id, id <> user_id -> account id (snd out) = account id w)
  /\ total_balance (users (snd out)) == total_balance (users w)
  /\ transactions (snd out) = transactions w
  /\ access_requests (snd out) = access_requests w
  /\ (forall rq' who',
        identity rq' = Some who' -> i_role who' = "admin" ->
        fst (toggle_account rq' user_id (snd out)) = Next (u_is_active user)
        /\ users (snd (toggle_account rq' user_id (snd out))) = users w).
Proof.
  intros Hnd Hid Hrole Hu out.
  destruct (user_account_is_account _ _ _ Hnd Hu) as [Hacc Hkey].
  destruct (toggle_outcome rq user_id w) as [[r [Hf Hw]]|Hok];
    fold out in Hf, Hw || fold out in Hok.
  { exfalso. destruct (toggle_refused _ _ _ _ Hf) as [H|[[x [H1 H2]]|H]];
      congruence. }
  destruct Hok as (who0 & user0 & entry & _ & _ & Hu0 & Hr & Hus & Hts & Hrs
                   & _).
  rewrite Hu in Hu0. injection Hu0 as <-.
  rewrite Hkey in Hus.
  assert (Hfirst : account user_id (snd out)
                   = Some (set_is_active (negb (u_is_active user)) user)).
  { unfold account in *. rewrite Hus.
    rewrite (find_update_one_same u_id) by reflexivity.
    rewrite Hacc. reflexivity. }
  split; [exact Hr|]. split; [exact Hfirst|].
  split.
  { intros id Hne. unfold account. rewrite Hus.
    apply (find_update_one_other u_id); [reflexivity | exact Hne]. }
  split.
  { rewrite Hus. clear. induction (users w) as [|d l IH]; simpl; [reflexivity|].
    destruct (Nat.eqb (u_id d) user_id); simpl; [reflexivity|].
    rewrite IH. reflexivity. }
  split; [exact Hts|]. split; [exact Hrs|].
  intros rq' who' Hid' Hrole'.
  assert (Hnd1 : NoDup (List.map u_id (users (snd out)))).
  { rewrite Hus, map_update_one by reflexivity. exact Hnd. }
  assert (Hu1 : user_account user_id (snd out)
                = Some (set_is_active (negb (u_is_active user)) user)).
  { unfold user_account.
    destruct (find _ (users (snd out))) as [y|] eqn:E.
    - pose proof (user_account_is_account user_id (snd out) y Hnd1 E)
        as [Hy _].
      rewrite Hfirst in Hy. now injection Hy as <-.
    - exfalso. unfold account in Hfirst. apply find_some in Hfirst.
      destruct Hfirst as [Hin Hq].
      apply (find_none _ _ E) in Hin. simpl in Hin.
      apply Nat.eqb_eq in Hq. simpl in Hq. rewrite Hq, Nat.eqb_refl in Hin.
      unfold user_account in Hu. apply find_some in Hu.
      destruct Hu as [_ Hrl]. apply andb_true_iff in Hrl.
      destruct Hrl as [_ Hrl]. rewrite Hrl in Hin. discriminate. }
  destruct (toggle_outcome rq' user_id (snd out)) as [[r [Hf Hw]]|Hok].
  { exfalso. destruct (toggle_refused _ _ _ _ Hf) as [H|[[x [H1 H2]]|H]];
      congruence. }
  destruct Hok as (who1 & user1 & entry1 & _ & _ & Hu1' & Hr1 & Hus1 & _).
  rewrite Hu1 in Hu1'. injection Hu1' as <-.
  split.
  { rewrite Hr1. simpl. now rewrite negb_involutive. }
  rewrite Hus1. simpl. rewrite Hkey, Hus.
  rewrite update_one_twice by reflexivity.
  apply (update_one_fixes _ _ _ user); [exact Hacc|].
  rewrite negb_involutive. destruct user; reflexivity.
Qed.

(** ** The ledger does not read [is_active] *)

Lemma find_update_one_stable {A} (p q : A -> bool) f (l : list A) :
  (forall x, q (f x) = q x) ->
  find q (update_one p f l) = find q l
  \/ find q (update_one p f l) = option_map f (find q l).
Proof.
  intros Hq. induction l as [|d l IH]; simpl; [now left|].
  destruct (p d); simpl.
  - rewrite Hq. destruct (q d); [now right | now left].
  - destruct (q d); [now left | exact IH].
Qed.

Lemma find_flagged (q : User -> bool) user_id b l :
  (forall x, q (set_is_active b x) = q x) ->
  exists b',
    find q (update_one (fun u => Nat.eqb (u_id u) user_id)
              (set_is_active b) l)
    = option_map (set_is_active b') (find q l)
    /\ (forall x, find q l = Some x ->
          set_is_active b' x = x \/ b' = b).
Proof.
  intros Hq.
  destruct (find_update_one_stable
              (fun u => Nat.eqb (u_id u) user_id) q (set_is_active b) l Hq)
    as [H|H].
  - destruct (find q l) as [x|] eqn:E.
    + exists (u_is_active x). rewrite H. simpl.
      split; [destruct x; reflexivity|].
      intros y Hy. injection Hy as <-. left. destruct x; reflexivity.
    + exists b. rewrite H. split; [reflexivity | discriminate].
  - exists b. split; [exact H | auto].
Qed.

(** X18.  The ledger routes never read [is_active]: setting the flag of
    any account to any value leaves the answer of a deposit, a withdrawal
    and a transfer unchanged.  A deactivated account still moves money. *)
Theorem ledger_ignores_the_active_flag rq w user_id b :
  let w' := set_users
              (update_one (fun u => Nat.eqb (u_id u) user_id)
                 (set_is_active b)) w in
  fst (run (deposit rq) w') = fst (run (deposit rq) w)
  /\ fst (run (withdraw rq) w') = fst (run (withdraw rq) w)
  /\ fst (run (transfer rq) w') = fst (run (transfer rq) w).
Proof.
  intros w'. subst w'.
  destruct w as [us ts rs al nid clk tk mu ob mf]. unfold set_users.
  world_simpl. split; [|split].
  - unfold deposit. step_handler; world_simpl.
    destruct (identity rq) as [who|]; [|reflexivity]. cbv beta iota zeta.
    destruct (Qle_bool _ 0); [reflexivity|].
    destruct (Qlt_bool 1000000 _); [reflexivity|].
    destruct (find_flagged (fun u => Nat.eqb (u_id u) (i_user_id who))
                user_id b us) as [b' [-> _]]; [reflexivity|].
    destruct (find _ us) as [u|]; world_simpl; [|reflexivity].
    destruct mu; reflexivity.
  - unfold withdraw. step_handler; world_simpl.
    destruct (identity rq) as [who|]; [|reflexivity]. cbv beta iota zeta.
    destruct (Qle_bool _ 0); [reflexivity|].
    destruct (find_flagged (fun u => Nat.eqb (u_id u) (i_user_id who))
                user_id b us) as [b' [-> _]]; [reflexivity|].
    destruct (find _ us) as [u|]; cbn [option_map]; world_simpl;
      [|reflexivity].
    cbn [set_is_active u_balance u_id u_email u_name].
    destruct (Qlt_bool (u_balance u) _); [reflexivity|].
    destruct mu; reflexivity.
  - unfold transfer. step_handler; world_simpl.
    destruct (identity rq) as [who|]; [|reflexivity]. cbv beta iota zeta.
    destruct (falsy_string _); [reflexivity|].
    destruct (Qle_bool _ 0); [reflexivity|].
    destruct (find_flagged (fun u => Nat.eqb (u_id u) (i_user_id who))
                user_id b us) as [b1 [-> _]]; [reflexivity|].
    match goal with
    | |- context [find (fun u => String.eqb (u_account_number u) ?a) _] =>
        destruct (find_flagged
                    (fun u => String.eqb (u_account_number u) a)
                    user_id b us) as [b2 [-> _]]; [reflexivity|];
        destruct (find (fun u => String.eqb (u_account_number u) a) us)
          as [r|]
    end; cbn [option_map]; world_simpl; [|reflexivity].
    destruct (find _ us) as [s|]; cbn [option_map]; world_simpl;
      [|reflexivity].
    cbn [set_is_active u_balance u_id u_email u_name u_account_number].
    destruct (Nat.eqb (u_id s) (u_id r)); [reflexivity|].
    destruct (Qlt_bool (u_balance s) _); [reflexivity|].
    destruct mu; reflexivity.
Qed.

(** ** Asking for the status of a request *)

(** X19.  [check_access_status] changes nothing.  It answers only an
    admin about a request that this admin made, with the request's status
    and expiry; the token field is the stored token when the status is
    granted and empty otherwise.  An admin who asks about a request of
    another admin gets 404. *)
Theorem status_check_shows_the_token_only_when_granted rq id w :
  let out := check_access_status rq id w in
  snd out = w
  /\ (forall s, fst out = Next s ->
        exists who req,
          identity rq = Some who
          /\ i_role who = "admin"
          /\ In req (access_requests w)
          /\ r_id req = id
          /\ r_admin_id req = i_user_id who
          /\ s_status s = r_status req
          /\ s_expires_at s = r_expires_at req
          /\ (r_status req = granted ->
              s_permission_token s = r_permission_token req)
          /\ (r_status req <> granted -> s_permission_token s = None))
  /\ (forall who,
        identity rq = Some who ->
        i_role who = "admin" ->
        (forall req, In req (access_requests w) -> r_id req = id ->
                     r_admin_id req <> i_user_id who) ->
        fst out = Reply (Json (Error "Access request not found") 404)).
Proof.
  intros out. subst out. unfold check_access_status. step_route.
  destruct (identity rq) as [who|].
  2:{ repeat split; intros; discriminate. }
  destruct (String.eqb_spec (i_role who) "admin") as [Hrole|Hrole];
    cbn [negb].
  2:{ split; [reflexivity|]. split; [intros; discriminate|].
      intros who' Hw Hr. injection Hw as <-. contradiction. }
  destruct (find _ (access_requests w)) as [req|] eqn:Hf; cbv beta iota.
  - apply find_some in Hf. destruct Hf as [Hin Hq].
    apply andb_true_iff in Hq. destruct Hq as [Hid Hadm].
    apply Nat.eqb_eq in Hid. apply Nat.eqb_eq in Hadm.
    split; [reflexivity|]. split.
    + intros s Hs. injection Hs as <-. exists who, req. simpl.
      repeat (split; [first [reflexivity | assumption]|]).
      split; intros Hst.
      * rewrite Hst. reflexivity.
      * destruct (r_status req); simpl; congruence.
    + intros who' Hw _ Hno. injection Hw as <-. exfalso.
      exact (Hno req Hin Hid Hadm).
  - split; [reflexivity|]. split; [intros; discriminate|]. reflexivity.
Qed.

(** X20.  Request, grant, status check.  Before the decision the
    requesting admin's status check shows pending and no token; after any
    caller's grant of the pending, unexpired request it shows granted and
    the token signed over the request's admin, account and id. *)
Theorem requester_learns_the_token_after_the_grant
  jwt secret rq_owner rq_admin id w req who :
  request_of id w = Some req ->
  r_status req = pending ->
  (clock w (ticks w) <= r_expires_at req)%Z ->
  identity rq_admin = Some who ->
  i_role who = "admin" ->
  i_user_id who = r_admin_id req ->
  let w1 := snd (run (grant_access jwt secret rq_owner id) w) in
  (exists s, fst (check_access_status rq_admin id w) = Next s
             /\ s_status s = pending /\ s_permission_token s = None)
  /\ (exists s, fst (check_access_status rq_admin id w1) = Next s
                /\ s_status s = granted
                /\ s_permission_token s
                   = Some (jwt_encode jwt (issued_claims w req id) secret)).
Proof.
  intros Hreq Hst Hlive Hid Hrole Hwho w1.
  assert (Hkey : r_id req = id)
    by (exact (find_key_eq r_id _ _ _ Hreq)).
  assert (Hfind : forall l x,
            find (fun r => Nat.eqb (r_id r) id) l = Some x ->
            r_admin_id x = i_user_id who ->
            find (fun r => Nat.eqb (r_id r) id
                           && Nat.eqb (r_admin_id r) (i_user_id who)) l
            = Some x).
  { induction l as [|d l IH]; simpl; [discriminate|].
    intros x. destruct (Nat.eqb (r_id d) id); simpl.
    - intros H Ha. injection H as ->. now rewrite Ha, Nat.eqb_refl.
    - exact (IH x). }
  split.
  - unfold check_access_status. step_route. rewrite Hid; cbv beta iota.
    rewrite Hrole.
    change (negb (String.eqb "admin" "admin")) with false. cbv beta iota.
    unfold request_of in Hreq.
    rewrite (Hfind _ req Hreq (eq_sym Hwho)). cbv beta iota.
    eexists. split; [reflexivity|]. simpl. rewrite Hst. auto.
  - pose proof (grant_outcome jwt secret rq_owner id w) as Hg.
    cbv zeta in Hg. rewrite Hreq, Hst in Hg. cbn [status_eqb negb] in Hg.
    apply Z.ltb_ge in Hlive. rewrite Hlive in Hg. fold w1 in Hg.
    destruct Hg as (_ & Hl & _).
    unfold check_access_status. step_route. rewrite Hid; cbv beta iota.
    rewrite Hrole.
    change (negb (String.eqb "admin" "admin")) with false. cbv beta iota.
    rewrite Hl.
    rewrite (Hfind _ (set_granted
                        (jwt_encode jwt (issued_claims w req id) secret)
                        (clock w (3 + ticks w)) req)).
    + cbv beta iota. eexists. split; [reflexivity|]. simpl. auto.
    + rewrite (find_update_one_same r_id) by reflexivity.
      unfold request_of in Hreq. rewrite Hreq. reflexivity.
    + simpl. symmetry. exact Hwho.
Qed.


Lemma get_transactions_pages_witness :
  pages_in_order
    (Sample.request_from (Some (Sample.login Sample.alice)) Sample.no_json
       None) 5 Sample.world 3
  = newest_first (transactions Sample.world)
  /\ get_transactions
       (Sample.request_from (Some (Sample.login Sample.alice)) Sample.no_json
          None) 1 0 Sample.world
     = inl PageZeroDivision.
Proof.
  destruct (get_transactions_pages
              (Sample.request_from (Some (Sample.login Sample.alice))
                 Sample.no_json None) Sample.world
              (Sample.login Sample.alice) eq_refl) as [Hzero Hpages].
  split; [|apply Hzero].
  destruct (Hpages 1%Z 5%Z) as (p & Hp & _ & _ & _ & _ & _ & _ & Hall);
    [lia | lia |].
  injection Hp as <-. exact Hall.
Defined.

Lemma toggle_account_flips_only_the_flag_witness :
  fst (toggle_account
         (Sample.request_from (Some (Sample.login Sample.mallory))
            Sample.no_json None) 2 Sample.world)
  = Next false
  /\ balance_of 2
       (snd (toggle_account
               (Sample.request_from (Some (Sample.login Sample.mallory))
                  Sample.no_json None) 2 Sample.world))
     = Some 250.
Proof.
  destruct (toggle_account_flips_only_the_flag
              (Sample.request_from (Some (Sample.login Sample.mallory))
                 Sample.no_json None) 2%nat Sample.world
              (Sample.login Sample.mallory) Sample.bob)
    as (Hr & Hacc & _);
    [repeat constructor; simpl; intuition discriminate
    | reflexivity | reflexivity | reflexivity |].
  split; [exact Hr|]. unfold balance_of. rewrite Hacc. reflexivity.
Defined.

Lemma status_check_shows_the_token_only_when_granted_witness :
  fst (check_access_status
         (Sample.request_from (Some (Sample.login Sample.bob))
            Sample.no_json None) 100
         (Sample.world_with (Sample.request_100 granted)))
  = Reply (Json (Error "Admin access required") 403)
  /\ fst (check_access_status
            (Sample.request_from
               (Some {| i_user_id := 4; i_role := "admin"; i_name := "Eve" |})
               Sample.no_json None) 100
            (Sample.world_with (Sample.request_100 granted)))
     = Reply (Json (Error "Access request not found") 404).
Proof.
  split; [reflexivity|].
  destruct (status_check_shows_the_token_only_when_granted
              (Sample.request_from
                 (Some {| i_user_id := 4; i_role := "admin";
                          i_name := "Eve" |})
                 Sample.no_json None) 100%nat
              (Sample.world_with (Sample.request_100 granted)))
    as (_ & _ & H).
  apply (H {| i_user_id := 4; i_role := "admin"; i_name := "Eve" |});
    [reflexivity | reflexivity |].
  intros req [<-|[]] _. discriminate.
Defined.

Lemma requester_learns_the_token_after_the_grant_witness :
  exists s,
    fst (check_access_status Desk.admin_view 100
           (snd (run (grant_access Desk.desk_jwt "s3cret" Desk.owner_click
                        100)
                   (Sample.world_with (Sample.request_100 pending)))))
    = Next s
    /\ s_status s = granted
    /\ s_permission_token s = Some "token-100".
Proof.
  destruct (requester_learns_the_token_after_the_grant Desk.desk_jwt "s3cret"
              Desk.owner_click Desk.admin_view 100%nat
              (Sample.world_with (Sample.request_100 pending))
              (Sample.request_100 pending) (Sample.login Sample.mallory))
    as (_ & s & Hs & Hst & Htok);
    [reflexivity | reflexivity | discriminate | reflexivity | reflexivity
    | reflexivity |].
  exists s. auto.
Defined.
